(** * TargetLayout (packages/web/app/src/components/layouts/target.tsx)

    A shallow embedding of the [TargetLayout] React component: the strings it
    builds, the element tree it returns and the navigation side effects it
    schedules, followed by the properties of the layout. *)

From Stdlib Require Import String Ascii List Bool Arith ZArith Lia.
Import ListNotations.
Local Open Scope string_scope.
Set Warnings "-register-all".

(** ** JavaScript strings

    A JavaScript string is represented by its UTF-8 encoding, one [ascii] per
    byte.  Template literals are concatenations, [===] on strings is
    [String.eqb]. *)
Module JS.

Definition LF : ascii := "010"%char.
Definition CR : ascii := "013"%char.

(** The regular expression atom [.] (no [s] flag) matches every character
    but the line terminators U+000A, U+000D, U+2028 and U+2029.  The last two
    are the byte sequences E2 80 A8 and E2 80 A9.  [at_line_terminator s]
    says that [s] begins with one of them. *)
Definition at_line_terminator (s : string) : bool :=
  match s with
  | EmptyString => false
  | String c rest =>
      if (Ascii.eqb c LF || Ascii.eqb c CR)%bool then true
      else if Ascii.eqb c "226"%char then
        match rest with
        | String c1 (String c2 _) =>
            (Ascii.eqb c1 "128"%char
             && (Ascii.eqb c2 "168"%char || Ascii.eqb c2 "169"%char))%bool
        | _ => false
        end
      else false
  end.

(** What is left of [s] once the greedy [.*] has consumed all it can. *)
Fixpoint dot_star (s : string) : string :=
  match s with
  | EmptyString => EmptyString
  | String _ rest => if at_line_terminator s then s else dot_star rest
  end.

(** [s.replace(/#.*/, '')]: the pattern has no [g] flag, so only the
    leftmost match is replaced; it starts at the first [#] and extends over
    the longest run of characters matched by [.]. *)
Fixpoint replace_hash_dot_star (s : string) : string :=
  match s with
  | EmptyString => EmptyString
  | String c rest =>
      if Ascii.eqb c "#"%char then dot_star rest
      else String c (replace_hash_dot_star rest)
  end.

(** Occurrence tests used to state properties of the two functions. *)
Fixpoint has_hash (s : string) : bool :=
  match s with
  | EmptyString => false
  | String c rest => (Ascii.eqb c "#"%char || has_hash rest)%bool
  end.

Fixpoint has_line_terminator (s : string) : bool :=
  match s with
  | EmptyString => false
  | String _ rest => (at_line_terminator s || has_line_terminator rest)%bool
  end.

(** The fragment of a path as the specification words it: the suffix that
    begins at the first [#].  [strip_fragment] removes it. *)
Fixpoint strip_fragment (s : string) : string :=
  match s with
  | EmptyString => EmptyString
  | String c rest =>
      if Ascii.eqb c "#"%char then EmptyString
      else String c (strip_fragment rest)
  end.

End JS.

(** ** Data model *)

(** Modelled from the spec: the enum [TargetAccessScope] is declared in
    [@/lib/access/target], which is not part of the sources at hand; these are
    the capability tags the specification names and the layout uses. *)
Module TargetAccessScope.
Inductive t : Type :=
| Read
| RegistryRead
| Settings.

Definition eqb (a b : t) : bool :=
  match a, b with
  | Read, Read | RegistryRead, RegistryRead | Settings, Settings => true
  | _, _ => false
  end.
End TargetAccessScope.

(** Modelled from the spec: the actor's membership record, with the scopes the
    actor's role grants. *)
Record Member : Type := {
  targetAccessScopes : list TargetAccessScope.t
}.

(** Modelled from the spec: [canAccessTarget(scope, actor) -> bool] of
    [@/lib/access/target] (absent from the sources): the actor holds the
    scope.  An absent membership record holds none. *)
Definition canAccessTarget (scope : TargetAccessScope.t) (member : option Member) : bool :=
  match member with
  | None => false
  | Some m => existsb (TargetAccessScope.eqb scope) (targetAccessScopes m)
  end.

(** The fields of the GraphQL fragments that the layout reads. *)
Record TargetFieldsFragment : Type := {
  target_cleanId : string;
  target_name : string
}.

Record ProjectFieldsFragment : Type := {
  project_name : string;
  project_type : string
}.

Record OrganizationFieldsFragment : Type := {
  org_name : string;
  org_me : Member
}.

(** [data.targets]: the nodes and the total count reported with them. *)
Record TargetConnection : Type := {
  nodes : list TargetFieldsFragment;
  total : Z
}.

Record TargetsQueryData : Type := {
  data_targets : TargetConnection
}.

(** [data.organization.organization] and [data.project]; either may be
    null when the entity does not exist. *)
Record ProjectQueryData : Type := {
  data_organization : option OrganizationFieldsFragment;
  data_project : option ProjectFieldsFragment
}.

(** urql's [CombinedError]; the layout only hands it on to [QueryError]. *)
Record CombinedError : Type := {
  message : string
}.

(** The state [useQuery] returns: [{ data, fetching, error }]. *)
Record UseQueryState (D : Type) : Type := {
  data : option D;
  fetching : bool;
  error : option CombinedError
}.
Arguments data {D} _.
Arguments fetching {D} _.
Arguments error {D} _.

(** A JavaScript value that can be missing in two ways: [undefined] and
    [null] are both falsy and both render as nothing, yet they are two
    distinct values, which a dependency array tells apart. *)
Inductive Nullable (A : Type) : Type :=
| Undefined
| Null
| Defined (a : A).
Arguments Undefined {A}.
Arguments Null {A}.
Arguments Defined {A} a.

(** The entity behind a value, when there is one. *)
Definition entity {A : Type} (v : Nullable A) : option A :=
  match v with
  | Defined a => Some a
  | Undefined | Null => None
  end.

(** The object [useRouteSelector()] returns.  [router_ref] stands for the
    identity of the object, which is what a dependency array compares. *)
Record Router : Type := {
  router_ref : nat;
  organizationId : string;
  projectId : string;
  targetId : string;
  asPath : string
}.

(** [enum TabValue]: each member with its string value. *)
Module TabValue.
Inductive t : Type :=
| Schema
| History
| Operations
| Laboratory
| Settings.

Definition to_string (v : t) : string :=
  match v with
  | Schema => "schema"
  | History => "history"
  | Operations => "operations"
  | Laboratory => "laboratory"
  | Settings => "settings"
  end.
End TabValue.

(** ** Element trees

    What a render returns.  [Hole] stands for the values React renders as
    nothing ([false], [null], [undefined]), [Arr] for an array child, and
    [Foreign] for a node produced by the caller's [children] function, whose
    inside is not the layout's. *)
Inductive PropValue : Type :=
| PStr (s : string)
| PNum (z : Z)
| PBool (b : bool)
| PError (e : CombinedError)
| PUndefined.

Section Layout.

Context {ReactNode : Type}.

Inductive Node : Type :=
| Elem (tag : string) (props : list (string * PropValue)) (kids : list Node)
| Text (s : string)
| Hole
| Arr (items : list Node)
| Foreign (n : ReactNode).

(** The elements of a tree in document order; holes are not rendered. *)
Fixpoint elements (n : Node) : list Node :=
  match n with
  | Elem _ _ kids => n :: flat_map elements kids
  | Arr items => flat_map elements items
  | Text _ | Hole | Foreign _ => []
  end.

Definition tag_of (n : Node) : string :=
  match n with
  | Elem tag _ _ => tag
  | _ => ""
  end.

Definition props_of (n : Node) : list (string * PropValue) :=
  match n with
  | Elem _ props _ => props
  | _ => []
  end.

Definition kids_of (n : Node) : list Node :=
  match n with
  | Elem _ _ kids => kids
  | _ => []
  end.

Fixpoint prop (name : string) (props : list (string * PropValue)) : PropValue :=
  match props with
  | [] => PUndefined
  | (k, v) :: rest => if String.eqb k name then v else prop name rest
  end.

(** The elements of [n] with the given tag. *)
Definition elements_tagged (tag : string) (n : Node) : list Node :=
  filter (fun e => String.eqb (tag_of e) tag) (elements n).

(** The tag of [e] is one of [tags]. *)
Definition tag_in (tags : list string) (e : Node) : bool :=
  existsb (String.eqb (tag_of e)) tags.

(** ** Props and per-render inputs *)

(** What [children] is called with.  The fields are optional here because
    the values handed over at run time may be [undefined]. *)
Record RenderProps : Type := {
  target : option TargetFieldsFragment;
  project : option ProjectFieldsFragment;
  organization : option OrganizationFieldsFragment
}.

(** The parameter of [children] as its type declares it: three fields, none
    optional.  [at_run_time] is such a value seen as what is handed over. *)
Record DeclaredRenderProps : Type := {
  declared_target : TargetFieldsFragment;
  declared_project : ProjectFieldsFragment;
  declared_organization : OrganizationFieldsFragment
}.

Definition at_run_time (d : DeclaredRenderProps) : RenderProps :=
  {| target := Some (declared_target d);
     project := Some (declared_project d);
     organization := Some (declared_organization d) |}.

Record Props : Type := {
  children : RenderProps -> ReactNode;
  value : TabValue.t;
  className : option string
}.

(** What the hooks hand to one render: the router object and the states of
    the two [useQuery] calls. *)
Record RenderState : Type := {
  router : Router;
  targetsQuery : UseQueryState TargetsQueryData;
  projectQuery : UseQueryState ProjectQueryData
}.

(** ** The values derived at the top of the component *)

(** [const targets = targetsQuery.data?.targets] *)
Definition targets_of (s : RenderState) : option TargetConnection :=
  option_map data_targets (data (targetsQuery s)).

(** [const target = targets?.nodes.find(node => node.cleanId === targetId)] *)
Definition target_of (s : RenderState) : option TargetFieldsFragment :=
  match targets_of s with
  | Some ts =>
      find (fun node => String.eqb (target_cleanId node) (targetId (router s)))
           (nodes ts)
  | None => None
  end.

(** [const org = projectQuery.data?.organization.organization] *)
Definition org_of (s : RenderState) : option OrganizationFieldsFragment :=
  match data (projectQuery s) with
  | Some d => data_organization d
  | None => None
  end.

(** [const project = projectQuery.data?.project]: [undefined] while there
    is no data, [null] when the data holds no project. *)
Definition project_value (s : RenderState) : Nullable ProjectFieldsFragment :=
  match data (projectQuery s) with
  | None => Undefined
  | Some d =>
      match data_project d with
      | None => Null
      | Some p => Defined p
      end
  end.

(** The project as an entity, for the places that only ask whether there is
    one ([!project], [org && project], [project?.type]). *)
Definition project_of (s : RenderState) : option ProjectFieldsFragment :=
  entity (project_value s).

(** [const me = org?.me] *)
Definition me_of (s : RenderState) : option Member :=
  option_map org_me (org_of s).

Definition canAccessSchema (s : RenderState) : bool :=
  canAccessTarget TargetAccessScope.RegistryRead (me_of s).

Definition canAccessSettings (s : RenderState) : bool :=
  canAccessTarget TargetAccessScope.Settings (me_of s).

(** JavaScript truthiness of an optional object, and [a || b] on two. *)
Definition truthy {A : Type} (o : option A) : bool :=
  match o with
  | Some _ => true
  | None => false
  end.

Definition or_else {A : Type} (a b : option A) : option A :=
  match a with
  | Some _ => a
  | None => b
  end.

(** ** Navigation side effects *)

Inductive Navigation : Type :=
| push (url : string) (as_ : string)
| access_redirect (scope : TargetAccessScope.t).

(** The body of the first [useEffect]. *)
Definition targets_effect_body (s : RenderState) : list Navigation :=
  if (negb (fetching (targetsQuery s)) && negb (truthy (target_of s)))%bool
  then [push "/404" (JS.replace_hash_dot_star (asPath (router s)))]
  else [].

(** The body of the second [useEffect]. *)
Definition project_effect_body (s : RenderState) : list Navigation :=
  if (negb (fetching (projectQuery s)) && negb (truthy (project_of s)))%bool
  then [push "/404" (JS.replace_hash_dot_star (asPath (router s)))]
  else [].

(** Modelled from the spec: the hook [useTargetAccess] of
    [@/lib/access/target] is absent from the sources.  The specification has
    it run a scope check as a side effect that redirects away when the actor
    lacks the scope; the destination is not given, so the navigation only
    records the scope that was missing. *)
Definition useTargetAccess (scope : TargetAccessScope.t) (member : option Member)
    (redirect : bool) : list Navigation :=
  if (redirect && negb (canAccessTarget scope member))%bool
  then [access_redirect scope]
  else [].

(** The dependency arrays [[router, target, targetsQuery.fetching]] and
    [[router, project, projectQuery.fetching]].  The router is compared by
    identity.  An absent target is [undefined] in every render ([find] and
    [?.] yield nothing else); an absent project is [undefined] or [null],
    and the two are told apart.  When the entity is present both bodies do
    nothing, whatever the comparison says. *)
Definition TargetsDeps : Type := (nat * option TargetFieldsFragment * bool)%type.
Definition ProjectDeps : Type := (nat * Nullable ProjectFieldsFragment * bool)%type.

Definition targets_deps (s : RenderState) : TargetsDeps :=
  (router_ref (router s), target_of s, fetching (targetsQuery s)).

Definition project_deps (s : RenderState) : ProjectDeps :=
  (router_ref (router s), project_value s, fetching (projectQuery s)).

(** What one call of the component yields: the effects it registers, in
    order, and the element it returns. *)
Record Rendering : Type := {
  targets_effect : TargetsDeps * list Navigation;
  project_effect : ProjectDeps * list Navigation;
  access_effect : list Navigation;
  output : Node
}.

(** ** The element tree *)

(** [{x?.field}] as a child: the text, or nothing. *)
Definition text_or_hole (o : option string) : Node :=
  match o with
  | Some t => Text t
  | None => Hole
  end.

Definition prop_of_option (o : option string) : PropValue :=
  match o with
  | Some v => PStr v
  | None => PUndefined
  end.

(** [<Spinner className="mt-10" />] *)
Definition spinner : Node :=
  Elem "Spinner" [("className", PStr "mt-10")] [].

(** [<QueryError error={projectQuery.error || targetsQuery.error} />] *)
Definition query_error (e : option CombinedError) : Node :=
  Elem "QueryError"
       [("error", match e with Some err => PError err | None => PUndefined end)] [].

(** [{org && project && (<div ...> ... </div>)}] *)
Definition breadcrumb (orgId projectId : string)
    (org : option OrganizationFieldsFragment)
    (project : option ProjectFieldsFragment) : Node :=
  match org, project with
  | Some org, Some project =>
      Elem "div"
        [("className", PStr "wrapper flex items-center text-xs font-medium text-gray-500")]
        [ Elem "NextLink" [("href", PStr ("/" ++ orgId)); ("passHref", PBool true)]
            [ Elem "Link" [("className", PStr "line-clamp-1 max-w-[250px]")]
                [ Text (org_name org) ] ];
          Elem "ArrowDownIcon"
            [("className", PStr "mx-1 h-4 w-4 -rotate-90 stroke-[1px]")] [];
          Elem "NextLink"
            [("href", PStr ("/" ++ orgId ++ "/" ++ projectId)); ("passHref", PBool true)]
            [ Elem "Link" [("className", PStr "line-clamp-1 max-w-[250px]")]
                [ Text (project_name project) ] ] ]
  | _, _ => Hole
  end.

(** [node.cleanId !== targetId && (<DropdownMenu.Item ...> ... )] *)
Definition switcher_item (orgId projectId targetId : string)
    (node : TargetFieldsFragment) : Node :=
  if negb (String.eqb (target_cleanId node) targetId) then
    Elem "DropdownMenu.Item" [("key", PStr (target_cleanId node))]
      [ Elem "NextLink"
          [("href", PStr ("/" ++ orgId ++ "/" ++ projectId ++ "/" ++ target_cleanId node))]
          [ Elem "a" [("className", PStr "line-clamp-1 max-w-2xl")]
              [ Text (target_name node) ] ] ]
  else Hole.

(** [{targets && targets.total > 1 && (<DropdownMenu> ... </DropdownMenu>)}] *)
Definition target_switcher (orgId projectId targetId : string)
    (targets : option TargetConnection) : Node :=
  match targets with
  | Some targets =>
      if (total targets >? 1)%Z then
        Elem "DropdownMenu" []
          [ Elem "DropdownMenu.Trigger" [("asChild", PBool true)]
              [ Elem "Button" [("size", PStr "small"); ("rotate", PNum 180)]
                  [ Elem "ArrowDownIcon"
                      [("className", PStr "h-5 w-5 text-gray-500")] [] ] ];
            Elem "DropdownMenu.Content" [("sideOffset", PNum 5); ("align", PStr "end")]
              [ Arr (map (switcher_item orgId projectId targetId) (nodes targets)) ] ]
      else Hole
  | None => Hole
  end.

(** [{can && (<NextLink passHref href=...><Tabs.Trigger value=... asChild>
    <a>label</a></Tabs.Trigger></NextLink>)}] *)
Definition tab_trigger (can : bool) (href : string) (v : TabValue.t)
    (label : string) : Node :=
  if can then
    Elem "NextLink" [("passHref", PBool true); ("href", PStr href)]
      [ Elem "Tabs.Trigger"
          [("value", PStr (TabValue.to_string v)); ("asChild", PBool true)]
          [ Elem "a" [] [ Text label ] ] ]
  else Hole.

(** The children of [<Tabs.List>]. *)
Definition tab_triggers (canSchema canSettings : bool)
    (orgId projectId targetId : string) : list Node :=
  let base := "/" ++ orgId ++ "/" ++ projectId ++ "/" ++ targetId in
  [ tab_trigger canSchema base TabValue.Schema "Schema";
    tab_trigger canSchema (base ++ "/history") TabValue.History "History";
    tab_trigger canSchema (base ++ "/operations") TabValue.Operations "Operations";
    tab_trigger canSchema (base ++ "/laboratory") TabValue.Laboratory "Laboratory";
    tab_trigger canSettings (base ++ "/settings") TabValue.Settings "Settings" ].

(** [<SubHeader> ... </SubHeader>] *)
Definition sub_header (s : RenderState) : Node :=
  let r := router s in
  Elem "SubHeader" []
    [ breadcrumb (organizationId r) (projectId r) (org_of s) (project_of s);
      Elem "div" [("className", PStr "wrapper")]
        [ Elem "div" [("className", PStr "flex items-center gap-2.5")]
            [ Elem "Heading" [("size", PStr "2xl"); ("className", PStr "line-clamp-1 max-w-2xl")]
                [ text_or_hole (option_map target_name (target_of s)) ];
              target_switcher (organizationId r) (projectId r) (targetId r) (targets_of s) ];
          Elem "div" [("className", PStr "mb-10 text-xs font-bold text-[#34eab9]")]
            [ text_or_hole (option_map project_type (project_of s)) ] ] ].

(** [<Tabs.Content value={value} className={className}>{children({...})}
    </Tabs.Content>] *)
Definition tabs_content (props : Props) (s : RenderState) : Node :=
  Elem "Tabs.Content"
    [("value", PStr (TabValue.to_string (value props)));
     ("className", prop_of_option (className props))]
    [ Foreign (children props
        {| target := target_of s;
           project := project_of s;
           organization := org_of s |}) ].

(** [<Tabs className="wrapper" value={value}> ... </Tabs>] *)
Definition tabs (props : Props) (s : RenderState) : Node :=
  let r := router s in
  Elem "Tabs"
    [("className", PStr "wrapper"); ("value", PStr (TabValue.to_string (value props)))]
    [ Elem "Tabs.List" []
        (tab_triggers (canAccessSchema s) (canAccessSettings s)
                      (organizationId r) (projectId r) (targetId r));
      tabs_content props s ].

(** The fragment returned last. *)
Definition main_layout (props : Props) (s : RenderState) : Node :=
  Elem "Fragment" [] [ sub_header s; tabs props s ].

(** ** The component *)

Definition TargetLayout (props : Props) (s : RenderState) : Rendering :=
  {| targets_effect := (targets_deps s, targets_effect_body s);
     project_effect := (project_deps s, project_effect_body s);
     access_effect := useTargetAccess TargetAccessScope.Read (me_of s) true;
     output :=
       if (fetching (projectQuery s) || fetching (targetsQuery s))%bool then
         spinner
       else if (truthy (error (projectQuery s)) || truthy (error (targetsQuery s)))%bool then
         query_error (or_else (error (projectQuery s)) (error (targetsQuery s)))
       else
         main_layout props s |}.

(** ** Effects across renders

    React runs a [useEffect] body after the first commit of a component and
    after every later commit whose dependency array differs, entry by entry,
    from the one of the previous commit.  A [Fiber] keeps the arrays of the
    last commit for the two effects of the layout. *)

Definition option_eqb {A : Type} (eqb : A -> A -> bool) (a b : option A) : bool :=
  match a, b with
  | Some x, Some y => eqb x y
  | None, None => true
  | _, _ => false
  end.

Definition target_same (a b : TargetFieldsFragment) : bool :=
  (String.eqb (target_cleanId a) (target_cleanId b)
   && String.eqb (target_name a) (target_name b))%bool.

Definition project_same (a b : ProjectFieldsFragment) : bool :=
  (String.eqb (project_name a) (project_name b)
   && String.eqb (project_type a) (project_type b))%bool.

Definition targets_deps_same (a b : TargetsDeps) : bool :=
  let '(r1, t1, f1) := a in
  let '(r2, t2, f2) := b in
  (Nat.eqb r1 r2 && option_eqb target_same t1 t2 && Bool.eqb f1 f2)%bool.

(** [undefined] is the same as [undefined] and [null] as [null], but not
    one as the other. *)
Definition nullable_same {A : Type} (same : A -> A -> bool) (a b : Nullable A) : bool :=
  match a, b with
  | Undefined, Undefined => true
  | Null, Null => true
  | Defined x, Defined y => same x y
  | _, _ => false
  end.

Definition project_deps_same (a b : ProjectDeps) : bool :=
  let '(r1, p1, f1) := a in
  let '(r2, p2, f2) := b in
  (Nat.eqb r1 r2 && nullable_same project_same p1 p2 && Bool.eqb f1 f2)%bool.

Definition useEffect {D : Type} (same : D -> D -> bool) (last : option D)
    (effect : D * list Navigation) : option D * list Navigation :=
  match last with
  | Some d =>
      if same d (fst effect) then (last, [])
      else (Some (fst effect), snd effect)
  | None => (Some (fst effect), snd effect)
  end.

Record Fiber : Type := {
  targets_effect_deps : option TargetsDeps;
  project_effect_deps : option ProjectDeps
}.

(** The component before its first render. *)
Definition mounting : Fiber :=
  {| targets_effect_deps := None; project_effect_deps := None |}.

(** One commit: the element shown and the navigations run by each effect. *)
Record Commit : Type := {
  fiber : Fiber;
  targets_navigation : list Navigation;
  project_navigation : list Navigation;
  access_navigation : list Navigation;
  rendered : Node
}.

Definition commit (f : Fiber) (r : Rendering) : Commit :=
  let t := useEffect targets_deps_same (targets_effect_deps f) (targets_effect r) in
  let p := useEffect project_deps_same (project_effect_deps f) (project_effect r) in
  {| fiber := {| targets_effect_deps := fst t; project_effect_deps := fst p |};
     targets_navigation := snd t;
     project_navigation := snd p;
     access_navigation := access_effect r;
     rendered := output r |}.

(** Every navigation of a commit, in the order the effects are declared. *)
Definition navigations (c : Commit) : list Navigation :=
  targets_navigation c ++ project_navigation c ++ access_navigation c.

(** A sequence of renders of one mounted component. *)
Fixpoint run (props : Props) (f : Fiber) (states : list RenderState) : list Commit :=
  match states with
  | [] => []
  | s :: rest =>
      let c := commit f (TargetLayout props s) in
      c :: run props (fiber c) rest
  end.

(** The two fetches have settled and neither reported an error. *)
Definition ready (s : RenderState) : bool :=
  (negb (fetching (projectQuery s)) && negb (fetching (targetsQuery s))
   && negb (truthy (error (projectQuery s)))
   && negb (truthy (error (targetsQuery s))))%bool.

(** The [value] props of the tab triggers of a tree, in document order. *)
Definition trigger_values (n : Node) : list PropValue :=
  map (fun e => prop "value" (props_of e)) (elements_tagged "Tabs.Trigger" n).

End Layout.

(** The tags that occur under [<SubHeader>] and under [<Tabs>]. *)
Definition sub_header_tags : list string :=
  ["SubHeader"; "div"; "NextLink"; "Link"; "ArrowDownIcon"; "Heading";
   "DropdownMenu"; "DropdownMenu.Trigger"; "Button"; "DropdownMenu.Content";
   "DropdownMenu.Item"; "a"].

Definition tabs_tags : list string :=
  ["Tabs"; "Tabs.List"; "NextLink"; "Tabs.Trigger"; "a"; "Tabs.Content"].

Arguments Node : clear implicits.
Arguments Props : clear implicits.
Arguments Rendering : clear implicits.
Arguments Commit : clear implicits.

(** ** Observing a tree *)

Section Observers.

Context {ReactNode : Type}.

(** The nodes of a tree that the caller's [children] function produced, in
    document order. *)
Fixpoint foreigns (n : Node ReactNode) : list ReactNode :=
  match n with
  | Elem _ _ kids => flat_map foreigns kids
  | Arr items => flat_map foreigns items
  | Foreign r => [r]
  | Text _ | Hole => []
  end.

(** The [key] props of the dropdown items of a tree. *)
Definition item_keys (n : Node ReactNode) : list PropValue :=
  map (fun e => prop "key" (props_of e)) (elements_tagged "DropdownMenu.Item" n).

End Observers.

(** What the renders that stay without the target push once the first of
    them has pushed, as the amended statement of the redirect has it: a
    render pushes again exactly when its router object is not the one of
    the render before it. *)
Fixpoint redirects_on_router_change (previous : Router) (states : list RenderState)
    : list (list Navigation) :=
  match states with
  | [] => []
  | s :: more =>
      (if Nat.eqb (router_ref previous) (router_ref (router s)) then []
       else [push "/404" (JS.replace_hash_dot_star (asPath (router s)))])
      :: redirects_on_router_change (router s) more
  end.

(** ** Sample data

    The scenario of the specification (organization [acme], project [api],
    route target [prod], targets Production and Staging) and variations of
    it, used to evaluate the definitions on concrete inputs. *)
Module Sample.

Definition prod : TargetFieldsFragment :=
  {| target_cleanId := "prod"; target_name := "Production" |}.

Definition stage : TargetFieldsFragment :=
  {| target_cleanId := "stage"; target_name := "Staging" |}.

Definition owner : Member :=
  {| targetAccessScopes :=
       [TargetAccessScope.Read; TargetAccessScope.RegistryRead;
        TargetAccessScope.Settings] |}.

Definition viewer : Member :=
  {| targetAccessScopes := [TargetAccessScope.Read] |}.


Definition acme (me : Member) : OrganizationFieldsFragment :=
  {| org_name := "Acme"; org_me := me |}.

Definition api : ProjectFieldsFragment :=
  {| project_name := "API"; project_type := "FEDERATION" |}.

Definition route (ref : nat) (path : string) : Router :=
  {| router_ref := ref;
     organizationId := "acme";
     projectId := "api";
     targetId := "prod";
     asPath := path |}.

Definition settled {D : Type} (d : D) : UseQueryState D :=
  {| data := Some d; fetching := false; error := None |}.

Definition pending {D : Type} : UseQueryState D :=
  {| data := None; fetching := true; error := None |}.

Definition failed {D : Type} (msg : string) : UseQueryState D :=
  {| data := None; fetching := false; error := Some {| message := msg |} |}.

Definition listing (ns : list TargetFieldsFragment) (n : Z) : UseQueryState TargetsQueryData :=
  settled {| data_targets := {| nodes := ns; total := n |} |}.

Definition found (me : Member) : UseQueryState ProjectQueryData :=
  settled {| data_organization := Some (acme me); data_project := Some api |}.

(** The scenario: both targets listed, the actor holding every scope. *)
Definition scenario : RenderState :=
  {| router := route 0 "/acme/api/prod";
     targetsQuery := listing [prod; stage] 2;
     projectQuery := found owner |}.

(** The same route with an empty target list. *)
Definition no_targets : RenderState :=
  {| router := route 0 "/acme/api/prod#top";
     targetsQuery := listing [] 0;
     projectQuery := found owner |}.

(** A caller whose [children] hands back what it was given. *)
Definition echo (v : TabValue.t) : Props RenderProps :=
  {| children := fun p => p; value := v; className := None |}.

(** Settled with nothing to show for it: no data and no error. *)
Definition idle {D : Type} : UseQueryState D :=
  {| data := None; fetching := false; error := None |}.

(** The project fetch is in flight while the targets fetch has failed. *)
Definition refetching : RenderState :=
  {| router := route 0 "/acme/api/prod";
     targetsQuery := failed "targets unavailable";
     projectQuery := pending |}.

(** Both fetches have failed. *)
Definition both_failed : RenderState :=
  {| router := route 0 "/acme/api/prod";
     targetsQuery := failed "targets unavailable";
     projectQuery := failed "project unavailable" |}.

(** Both fetches settled, no error, and none of the three entities. *)
Definition nothing_found : RenderState :=
  {| router := route 0 "/acme/api/prod";
     targetsQuery := idle;
     projectQuery := idle |}.


(** The actor may read, and nothing more. *)
Definition read_only : RenderState :=
  {| router := route 0 "/acme/api/prod";
     targetsQuery := listing [prod; stage] 2;
     projectQuery := found viewer |}.

(** One node listed, yet a total of two reported. *)
Definition short_listing : RenderState :=
  {| router := route 0 "/acme/api/prod";
     targetsQuery := listing [prod] 2;
     projectQuery := found owner |}.

(** Two nodes listed, yet a total of one reported. *)
Definition long_listing : RenderState :=
  {| router := route 0 "/acme/api/prod";
     targetsQuery := listing [prod; stage] 1;
     projectQuery := found owner |}.

(** The targets fetch still in flight, and then settled on a list that does
    not hold the route's target. *)
Definition fetching_targets : RenderState :=
  {| router := route 0 "/acme/api/prod";
     targetsQuery := pending;
     projectQuery := found owner |}.

Definition unlisted : RenderState :=
  {| router := route 0 "/acme/api/prod";
     targetsQuery := listing [stage] 1;
     projectQuery := found owner |}.

(** The empty list again, seen through a new router object. *)
Definition no_targets_rerouted : RenderState :=
  {| router := route 1 "/acme/api/prod";
     targetsQuery := listing [] 0;
     projectQuery := found owner |}.

(** The project fetch settled on data without the project. *)
Definition project_missing : RenderState :=
  {| router := route 0 "/acme/api/prod#top";
     targetsQuery := listing [prod; stage] 2;
     projectQuery := settled {| data_organization := Some (acme owner);
                                data_project := None |} |}.

(** Two listed nodes share the route's cleanId. *)
Definition prod_again : TargetFieldsFragment :=
  {| target_cleanId := "prod"; target_name := "Production (old)" |}.

Definition duplicated : RenderState :=
  {| router := route 0 "/acme/api/prod";
     targetsQuery := listing [stage; prod; prod_again] 3;
     projectQuery := found owner |}.

(** The list without the route's target, seen through a new router object. *)
Definition unlisted_rerouted : RenderState :=
  {| router := route 1 "/acme/api/prod";
     targetsQuery := listing [stage] 1;
     projectQuery := found owner |}.

(** No project data yet although nothing is in flight, and then data whose
    project is null. *)
Definition project_unloaded : RenderState :=
  {| router := route 0 "/acme/api/prod";
     targetsQuery := listing [prod; stage] 2;
     projectQuery := idle |}.

Definition project_null : RenderState :=
  {| router := route 0 "/acme/api/prod";
     targetsQuery := listing [prod; stage] 2;
     projectQuery := settled {| data_organization := Some (acme owner);
                                data_project := None |} |}.

(** Settings is the active tab of an actor who may only read. *)
Definition on_settings : Props RenderProps :=
  echo TabValue.Settings.

End Sample.


(** * Properties *)

(** ** Strings *)

Lemma replace_without_hash (s : string) :
  JS.has_hash s = false -> JS.replace_hash_dot_star s = s.
Proof.
  induction s as [|c s IH]; simpl; [reflexivity|].
  destruct (Ascii.eqb c "#"); simpl; [discriminate|].
  intros H. now rewrite IH.
Qed.

Lemma dot_star_without_terminator (s : string) :
  JS.has_line_terminator s = false -> JS.dot_star s = "".
Proof.
  induction s as [|c s IH]; [reflexivity|].
  cbn [JS.has_line_terminator JS.dot_star].
  destruct (JS.at_line_terminator (String c s)); simpl; [discriminate|].
  exact IH.
Qed.

Lemma append_empty_r (s : string) : s ++ "" = s.
Proof. induction s as [|c s IH]; simpl; [reflexivity | now rewrite IH]. Qed.

(** The match of [/#.*/] starts at the first [#]; what follows the match is
    kept. *)
Lemma replace_at_first_hash (pre suf : string) :
  JS.has_hash pre = false ->
  JS.replace_hash_dot_star (pre ++ String "#" suf) = pre ++ JS.dot_star suf.
Proof.
  induction pre as [|c pre IH]; simpl; [reflexivity|].
  destruct (Ascii.eqb c "#"); simpl; [discriminate|].
  intros H. now rewrite IH.
Qed.

Lemma strip_fragment_at_first_hash (pre suf : string) :
  JS.has_hash pre = false ->
  JS.strip_fragment (pre ++ String "#" suf) = pre.
Proof.
  induction pre as [|c pre IH]; simpl; [reflexivity|].
  destruct (Ascii.eqb c "#"); simpl; [discriminate|].
  intros H. now rewrite IH.
Qed.

Lemma at_line_terminator_extend (c : ascii) (a k : string) :
  JS.at_line_terminator (String c a) = true ->
  JS.at_line_terminator (String c (a ++ k)) = true.
Proof.
  cbn [JS.at_line_terminator].
  destruct (Ascii.eqb c JS.LF || Ascii.eqb c JS.CR)%bool; [reflexivity|].
  destruct (Ascii.eqb c "226"); [|discriminate].
  destruct a as [|c1 [|c2 a]]; cbn [append]; (discriminate || trivial).
Qed.

(** [.*] consumes a prefix free of line terminators and stops at the end of
    the string or in front of a line terminator. *)
Lemma dot_star_split (s : string) :
  exists consumed,
    s = consumed ++ JS.dot_star s
    /\ JS.has_line_terminator consumed = false
    /\ (JS.dot_star s = "" \/ JS.at_line_terminator (JS.dot_star s) = true).
Proof.
  induction s as [|c s (a & E & Ha & Hk)].
  - exists "". cbn. auto.
  - cbn [JS.dot_star].
    destruct (JS.at_line_terminator (String c s)) eqn:T.
    + exists "". cbn [append JS.has_line_terminator]. auto.
    + exists (String c a). cbn [append JS.has_line_terminator].
      split; [now rewrite <- E|]. split; [|exact Hk].
      rewrite Ha, orb_false_r.
      destruct (JS.at_line_terminator (String c a)) eqn:Ta; [|reflexivity].
      rewrite E in T.
      now rewrite (at_line_terminator_extend c a _ Ta) in T.
Qed.

Lemma strip_fragment_has_no_hash (s : string) :
  JS.has_hash (JS.strip_fragment s) = false.
Proof.
  induction s as [|c s IH]; [reflexivity|]. cbn [JS.strip_fragment].
  destruct (Ascii.eqb c "#") eqn:E; [reflexivity|].
  cbn [JS.has_hash]. now rewrite E, IH.
Qed.

Lemma replace_keeps_the_front (s : string) :
  exists kept, JS.replace_hash_dot_star s = JS.strip_fragment s ++ kept.
Proof.
  induction s as [|c s (k & IH)]; [now exists ""|].
  cbn [JS.replace_hash_dot_star JS.strip_fragment].
  destruct (Ascii.eqb c "#").
  - now exists (JS.dot_star s).
  - exists k. cbn [append]. now rewrite IH.
Qed.

Lemma replace_on_one_line (s : string) :
  JS.has_line_terminator s = false ->
  JS.replace_hash_dot_star s = JS.strip_fragment s.
Proof.
  induction s as [|c s IH]; [reflexivity|].
  cbn [JS.has_line_terminator JS.replace_hash_dot_star JS.strip_fragment].
  intros H. apply orb_false_elim in H. destruct H as (_ & H).
  destruct (Ascii.eqb c "#").
  - now apply dot_star_without_terminator.
  - now rewrite IH.
Qed.

Lemma strip_fragment_within (pre suf : string) :
  exists rest, pre = JS.strip_fragment (pre ++ String "#" suf) ++ rest.
Proof.
  induction pre as [|c pre (rest & IH)]; cbn [append JS.strip_fragment].
  - now exists "".
  - destruct (Ascii.eqb c "#").
    + now exists (String c pre).
    + exists rest. cbn [append]. now rewrite <- IH.
Qed.

(** Both effects push the same pair. *)
Lemma not_found_push (s : RenderState) (n : Navigation) :
  In n (targets_effect_body s ++ project_effect_body s) ->
  n = push "/404" (JS.replace_hash_dot_star (asPath (router s))).
Proof.
  unfold targets_effect_body, project_effect_body.
  intros H. apply in_app_or in H.
  destruct H as [H|H];
    match type of H with
    | In _ (if ?b then _ else _) => destruct b
    end; simpl in H; intuition congruence.
Qed.

(** ** C7: the path handed to the not-found redirect *)

(** C7: the current path is the path of a URL and holds no line terminator.
    For every such path each navigation of the two not-found effects is a push
    of [/404] whose second argument is the current path without its
    fragment: it holds no [#], every suffix of the current path that begins
    with a [#] is gone from it (it lies within whatever precedes that [#],
    and is all of it for the first [#]), and a path with no [#] is passed
    unchanged. *)
Theorem not_found_path_drops_fragment (s : RenderState) (url p : string) :
  JS.has_line_terminator (asPath (router s)) = false ->
  In (push url p) (targets_effect_body s ++ project_effect_body s) ->
  url = "/404"
  /\ p = JS.strip_fragment (asPath (router s))
  /\ JS.has_hash p = false
  /\ (JS.has_hash (asPath (router s)) = false -> p = asPath (router s))
  /\ (forall pre suf,
        asPath (router s) = pre ++ String "#" suf ->
        (exists rest, pre = p ++ rest)
        /\ (JS.has_hash pre = false -> p = pre)).
Proof.
  intros Hline H. apply not_found_push in H. injection H as -> ->.
  rewrite (replace_on_one_line _ Hline).
  split; [reflexivity|]. split; [reflexivity|].
  split; [apply strip_fragment_has_no_hash|]. split.
  - intros Hno. rewrite <- (replace_on_one_line _ Hline).
    now apply replace_without_hash.
  - intros pre suf E. rewrite E. split.
    + apply strip_fragment_within.
    + intros Hpre. now apply strip_fragment_at_first_hash.
Qed.

Lemma not_found_path_drops_fragment_witness :
  In (push "/404" "/acme/api/prod")
     (targets_effect_body Sample.no_targets ++ project_effect_body Sample.no_targets)
  /\ JS.has_hash "/acme/api/prod" = false
  /\ "/acme/api/prod" = JS.strip_fragment "/acme/api/prod#top".
Proof.
  assert (H : In (push "/404" "/acme/api/prod")
                 (targets_effect_body Sample.no_targets
                  ++ project_effect_body Sample.no_targets))
    by (left; reflexivity).
  split; [exact H|].
  destruct (not_found_path_drops_fragment Sample.no_targets _ _ eq_refl H)
    as (_ & E & K & _).
  split; [exact K | exact E].
Defined.

(** ** C1: the redirect for a target that is not listed *)

Section Redirects.

Context {ReactNode : Type}.
Variable props : Props ReactNode.

Lemma target_not_listed (s : RenderState) (ts : TargetConnection) :
  targets_of s = Some ts ->
  (forall node, In node (nodes ts) -> target_cleanId node <> targetId (router s)) ->
  target_of s = None.
Proof.
  intros E H. unfold target_of. rewrite E.
  induction (nodes ts) as [|n ns IH]; simpl; [reflexivity|].
  destruct (String.eqb_spec (target_cleanId n) (targetId (router s))) as [e|_].
  - exfalso. apply (H n); [now left | exact e].
  - apply IH. intros node Hin. apply H. now right.
Qed.

(** The first effect runs when the component mounts or its dependencies
    change, and then pushes when the target is missing. *)
Lemma targets_effect_fires (f : Fiber) (s : RenderState) :
  fetching (targetsQuery s) = false ->
  target_of s = None ->
  (forall d, targets_effect_deps f = Some d ->
             targets_deps_same d (targets_deps s) = false) ->
  let c := commit f (TargetLayout props s) in
  targets_navigation c = [push "/404" (JS.replace_hash_dot_star (asPath (router s)))]
  /\ targets_effect_deps (fiber c) = Some (router_ref (router s), None, false).
Proof.
  intros Hf Ht Hd. cbn.
  unfold useEffect, targets_effect_body, targets_deps. cbn.
  rewrite Hf, Ht. cbn.
  destruct (targets_effect_deps f) as [d|] eqn:E; [|split; reflexivity].
  specialize (Hd d eq_refl). unfold targets_deps in Hd.
  rewrite Hf, Ht in Hd. rewrite Hd. split; reflexivity.
Qed.

(** Once the effect has pushed for a missing target, a render that is still
    without it pushes again exactly when its router is a new object. *)
Lemma targets_effect_per_router (rest : list RenderState) :
  forall (f : Fiber) (previous : Router),
  targets_effect_deps f = Some (router_ref previous, None, false) ->
  Forall (fun s' => fetching (targetsQuery s') = false
                    /\ target_of s' = None) rest ->
  map targets_navigation (run props f rest)
    = redirects_on_router_change previous rest.
Proof.
  induction rest as [|s' rest IH]; intros f previous Hf Hall; [reflexivity|].
  inversion Hall as [|? ? (Hq & Ht) Hrest]; subst.
  cbn [run map redirects_on_router_change].
  assert (K : useEffect targets_deps_same (targets_effect_deps f)
                (targets_effect (TargetLayout props s'))
              = (Some (router_ref (router s'), None, false),
                 if Nat.eqb (router_ref previous) (router_ref (router s')) then []
                 else [push "/404" (JS.replace_hash_dot_star (asPath (router s')))])).
  { rewrite Hf. cbn. unfold targets_deps, targets_effect_body.
    rewrite Hq, Ht. cbn.
    destruct (Nat.eqb_spec (router_ref previous) (router_ref (router s'))) as [E|_];
      cbn; [now rewrite E | reflexivity]. }
  f_equal.
  - unfold commit. cbn [targets_navigation]. now rewrite K.
  - apply IH; [|exact Hrest].
    unfold commit. cbn [fiber targets_effect_deps]. now rewrite K.
Qed.

Lemma no_redirect_without_router_change (previous : Router) (rest : list RenderState) :
  Forall (fun s' => router_ref (router s') = router_ref previous) rest ->
  redirects_on_router_change previous rest = repeat [] (length rest).
Proof.
  revert previous.
  induction rest as [|s' rest IH]; intros previous Hall; [reflexivity|].
  inversion Hall as [|? ? Hr Hrest]; subst.
  cbn [redirects_on_router_change length repeat].
  rewrite Hr, Nat.eqb_refl. f_equal. apply IH.
  revert Hrest. apply Forall_impl. intros a Ha. now rewrite Ha.
Qed.

(** The effect is due: the component mounts, or the last commit had another
    router object, a target, or the fetch in flight. *)
Lemma targets_effect_due (f : Fiber) (s : RenderState) :
  fetching (targetsQuery s) = false ->
  target_of s = None ->
  (targets_effect_deps f = None
   \/ exists r t b,
        targets_effect_deps f = Some (r, t, b)
        /\ (r <> router_ref (router s) \/ t <> None \/ b = true)) ->
  forall d, targets_effect_deps f = Some d ->
            targets_deps_same d (targets_deps s) = false.
Proof.
  intros Hf Ht [Hnone | (r & t & b & Hsome & Hdiff)] d Hd;
    [congruence|].
  rewrite Hsome in Hd. injection Hd as <-.
  unfold targets_deps. rewrite Hf, Ht. cbn.
  destruct Hdiff as [Hr | [Hne | ->]].
  - apply Nat.eqb_neq in Hr. now rewrite Hr.
  - destruct t; [|now elim Hne]. cbn. now rewrite andb_false_r.
  - now rewrite andb_false_r.
Qed.

(** C1 (amended): take a render in which the targets fetch is not fetching
    and the fetched list (possibly empty) has no entry whose cleanId is the
    route's target identifier, reached by mounting or after a commit with
    another router object, with a target, or with the fetch in flight.  Its
    commit pushes [/404] with the path cut at its fragment.  Of the renders
    that follow without the fetch restarting and without the target, one
    pushes again exactly when its router object is not that of the render
    before it; so while the router object stays the same the redirect is
    issued exactly once. *)
Theorem missing_target_redirects_once_per_router
    (f : Fiber) (s : RenderState) (ts : TargetConnection) (rest : list RenderState) :
  targets_of s = Some ts ->
  (forall node, In node (nodes ts) -> target_cleanId node <> targetId (router s)) ->
  fetching (targetsQuery s) = false ->
  (targets_effect_deps f = None
   \/ exists r t b,
        targets_effect_deps f = Some (r, t, b)
        /\ (r <> router_ref (router s) \/ t <> None \/ b = true)) ->
  Forall (fun s' => fetching (targetsQuery s') = false
                    /\ target_of s' = None) rest ->
  map targets_navigation (run props f (s :: rest))
    = [push "/404" (JS.replace_hash_dot_star (asPath (router s)))]
        :: redirects_on_router_change (router s) rest
  /\ (Forall (fun s' => router_ref (router s') = router_ref (router s)) rest ->
      map targets_navigation (run props f (s :: rest))
        = [push "/404" (JS.replace_hash_dot_star (asPath (router s)))]
            :: repeat [] (length rest)).
Proof.
  intros E Hno Hf Hdue Hrest.
  pose proof (target_not_listed s ts E Hno) as Ht.
  destruct (targets_effect_fires f s Hf Ht (targets_effect_due f s Hf Ht Hdue))
    as (Hnav & Hdeps).
  assert (K : map targets_navigation (run props f (s :: rest))
              = [push "/404" (JS.replace_hash_dot_star (asPath (router s)))]
                  :: redirects_on_router_change (router s) rest).
  { cbn [run map]. f_equal; [exact Hnav|].
    exact (targets_effect_per_router rest _ (router s) Hdeps Hrest). }
  split; [exact K|].
  intros Hsame. rewrite K. f_equal.
  now apply no_redirect_without_router_change.
Qed.

End Redirects.

(** From the mount through the fetch to the settled list without the
    target: nothing while fetching, one push on settling, nothing after. *)
Example redirect_after_fetch_settles :
  map navigations
      (run (Sample.echo TabValue.Schema) mounting
           [Sample.fetching_targets; Sample.unlisted; Sample.unlisted])
    = [[]; [push "/404" "/acme/api/prod"]; []].
Proof. reflexivity. Qed.

(** C1, as stated, fails: three renders in one and the same fetch-settled
    state - the same settled targets query with an empty list, the route's
    target not in it - push [/404] twice, because the third render sees a
    new router object and the router is one of the effect's dependencies. *)
Lemma new_router_redirects_again :
  targetsQuery Sample.no_targets_rerouted = targetsQuery Sample.no_targets
  /\ targetId (router Sample.no_targets_rerouted) = targetId (router Sample.no_targets)
  /\ fetching (targetsQuery Sample.no_targets) = false
  /\ target_of Sample.no_targets = None
  /\ map targets_navigation
         (run (Sample.echo TabValue.Schema) mounting
              [Sample.no_targets; Sample.no_targets; Sample.no_targets_rerouted])
     = [[push "/404" "/acme/api/prod"]; []; [push "/404" "/acme/api/prod"]].
Proof. repeat split; reflexivity. Qed.

(** After a render with the fetch in flight: the list settles without the
    route's target, is rendered again, and then once more through a new
    router object. *)
Lemma missing_target_redirects_once_per_router_witness :
  map targets_navigation
      (run (Sample.echo TabValue.Schema)
           (fiber (commit mounting
                     (TargetLayout (Sample.echo TabValue.Schema) Sample.fetching_targets)))
           [Sample.unlisted; Sample.unlisted; Sample.unlisted_rerouted])
    = [[push "/404" "/acme/api/prod"]; []; [push "/404" "/acme/api/prod"]].
Proof.
  refine (proj1 (missing_target_redirects_once_per_router
                   (Sample.echo TabValue.Schema)
                   (fiber (commit mounting
                             (TargetLayout (Sample.echo TabValue.Schema)
                                           Sample.fetching_targets)))
                   Sample.unlisted {| nodes := [Sample.stage]; total := 1 |}
                   [Sample.unlisted; Sample.unlisted_rerouted]
                   eq_refl _ eq_refl _ _)).
  - intros node [<-|[]]. discriminate.
  - right. exists 0, None, true. split; [reflexivity|]. right. right. reflexivity.
  - repeat constructor.
Defined.

(** ** C5 and C9: loading, error and their order *)

Section Phases.

Context {ReactNode : Type}.
Variable props : Props ReactNode.

Lemma fetching_renders_spinner (s : RenderState) :
  fetching (projectQuery s) = true \/ fetching (targetsQuery s) = true ->
  output (TargetLayout props s) = spinner.
Proof.
  intros [H|H]; cbn [TargetLayout output]; rewrite H;
    [reflexivity | now rewrite orb_true_r].
Qed.

Lemma settled_error_renders_error (s : RenderState) :
  fetching (projectQuery s) = false ->
  fetching (targetsQuery s) = false ->
  error (projectQuery s) <> None \/ error (targetsQuery s) <> None ->
  output (TargetLayout props s)
    = query_error (or_else (error (projectQuery s)) (error (targetsQuery s))).
Proof.
  intros Hp Ht He. cbn [TargetLayout output]. rewrite Hp, Ht. cbn.
  destruct (error (projectQuery s)); [reflexivity|].
  destruct (error (targetsQuery s)); [reflexivity|].
  destruct He as [He|He]; now elim He.
Qed.

(** C5 (amended): while either fetch is in flight the spinner is rendered;
    once neither is in flight and either has reported an error, the error
    display is rendered; in both cases the main layout is not. *)
Theorem spinner_then_error_display (s : RenderState) :
  (fetching (projectQuery s) = true \/ fetching (targetsQuery s) = true ->
   output (TargetLayout props s) = spinner
   /\ output (TargetLayout props s) <> main_layout props s)
  /\ (fetching (projectQuery s) = false ->
      fetching (targetsQuery s) = false ->
      error (projectQuery s) <> None \/ error (targetsQuery s) <> None ->
      output (TargetLayout props s)
        = query_error (or_else (error (projectQuery s)) (error (targetsQuery s)))
      /\ output (TargetLayout props s) <> main_layout props s).
Proof.
  split.
  - intros H. rewrite (fetching_renders_spinner s H).
    split; [reflexivity | discriminate].
  - intros Hp Ht He. rewrite (settled_error_renders_error s Hp Ht He).
    split; [reflexivity | discriminate].
Qed.

(** C9: with one fetch in flight and the other already failed the output is
    the spinner and holds no error display; with both fetches failed (and
    none in flight) the output is the error display and the error it is
    given is that of the project fetch, not that of the targets fetch. *)
Theorem loading_precedes_error (s : RenderState) :
  ((fetching (projectQuery s) = true /\ error (targetsQuery s) <> None)
   \/ (fetching (targetsQuery s) = true /\ error (projectQuery s) <> None) ->
   output (TargetLayout props s) = Elem "Spinner" [("className", PStr "mt-10")] []
   /\ elements_tagged "QueryError" (output (TargetLayout props s)) = [])
  /\ (forall ep et,
        fetching (projectQuery s) = false ->
        fetching (targetsQuery s) = false ->
        error (projectQuery s) = Some ep ->
        error (targetsQuery s) = Some et ->
        output (TargetLayout props s)
          = Elem "QueryError" [("error", PError ep)] []
        /\ map (fun e => prop "error" (props_of e))
               (elements_tagged "QueryError" (output (TargetLayout props s)))
           = [PError ep]).
Proof.
  split.
  - intros H.
    assert (K : output (TargetLayout props s) = spinner)
      by (apply fetching_renders_spinner; tauto).
    rewrite K. split; reflexivity.
  - intros ep et Hp Ht Ep Et.
    rewrite (settled_error_renders_error s Hp Ht) by (left; congruence).
    rewrite Ep. split; reflexivity.
Qed.

End Phases.

(** C5, as stated, fails: the targets fetch has reported an error, yet with
    the project fetch in flight the spinner is rendered and no error display. *)
Lemma error_while_fetching_shows_spinner :
  error (targetsQuery Sample.refetching) = Some {| message := "targets unavailable" |}
  /\ output (TargetLayout (Sample.echo TabValue.Schema) Sample.refetching) = spinner
  /\ forall e, output (TargetLayout (Sample.echo TabValue.Schema) Sample.refetching)
               <> query_error e.
Proof.
  split; [reflexivity|]. split; [reflexivity|]. intros e. discriminate.
Qed.

Lemma spinner_then_error_display_witness :
  output (TargetLayout (Sample.echo TabValue.Schema) Sample.refetching) = spinner
  /\ output (TargetLayout (Sample.echo TabValue.Schema) Sample.both_failed)
     = query_error (Some {| message := "project unavailable" |}).
Proof.
  split.
  - exact (proj1 (proj1 (spinner_then_error_display
                           (Sample.echo TabValue.Schema) Sample.refetching)
                        (or_introl eq_refl))).
  - refine (proj1 (proj2 (spinner_then_error_display
                            (Sample.echo TabValue.Schema) Sample.both_failed)
                         eq_refl eq_refl (or_introl _))).
    discriminate.
Defined.

Lemma loading_precedes_error_witness :
  output (TargetLayout (Sample.echo TabValue.Schema) Sample.refetching)
    = Elem "Spinner" [("className", PStr "mt-10")] []
  /\ output (TargetLayout (Sample.echo TabValue.Schema) Sample.both_failed)
     = Elem "QueryError"
         [("error", PError {| message := "project unavailable" |})] [].
Proof.
  split.
  - refine (proj1 (proj1 (loading_precedes_error
                            (Sample.echo TabValue.Schema) Sample.refetching)
                         (or_introl (conj eq_refl _)))).
    discriminate.
  - exact (proj1 (proj2 (loading_precedes_error
                           (Sample.echo TabValue.Schema) Sample.both_failed)
                        _ _ eq_refl eq_refl eq_refl eq_refl)).
Defined.

(** ** Tags of the layout's parts *)

Section Tags.

Context {ReactNode : Type}.
Variable props : Props ReactNode.

Lemma elements_tagged_absent (tags : list string) (tag : string) (n : Node ReactNode) :
  Forall (fun e => tag_in tags e = true) (elements n) ->
  existsb (String.eqb tag) tags = false ->
  elements_tagged tag n = [].
Proof.
  unfold elements_tagged. intros Hall Hno.
  induction Hall as [|e es He _ IH]; [reflexivity|].
  cbn [filter]. rewrite IH.
  destruct (String.eqb_spec (tag_of e) tag) as [E|_]; [|reflexivity].
  unfold tag_in in He. rewrite E in He. congruence.
Qed.

Lemma elements_tagged_elem (tag t : string) (ps : list (string * PropValue))
    (kids : list (Node ReactNode)) :
  elements_tagged tag (Elem t ps kids)
    = ((if String.eqb t tag then [Elem t ps kids] else [])
         ++ flat_map (elements_tagged tag) kids)%list.
Proof.
  unfold elements_tagged. cbn [elements filter tag_of].
  assert (K : filter (fun e : Node ReactNode => String.eqb (tag_of e) tag)
                     (flat_map elements kids)
              = flat_map (fun k => filter (fun e => String.eqb (tag_of e) tag)
                                          (elements k)) kids).
  { induction kids as [|k kids IH]; [reflexivity|].
    cbn [flat_map]. now rewrite filter_app, IH. }
  rewrite K. now destruct (String.eqb t tag).
Qed.

Lemma switcher_items_tags (o p t : string) (ns : list TargetFieldsFragment) :
  Forall (fun e : Node ReactNode =>
            tag_in ["DropdownMenu.Item"; "NextLink"; "a"] e = true)
         (flat_map elements (map (switcher_item o p t) ns)).
Proof.
  induction ns as [|n ns IH]; [constructor|].
  cbn [map flat_map]. apply Forall_app. split; [|exact IH].
  unfold switcher_item.
  destruct (negb (String.eqb (target_cleanId n) t)); cbn; repeat constructor.
Qed.

Lemma tag_in_weaken (small big : list string) (es : list (Node ReactNode)) :
  incl small big ->
  Forall (fun e => tag_in small e = true) es ->
  Forall (fun e => tag_in big e = true) es.
Proof.
  intros Hinc. apply Forall_impl. intros e. unfold tag_in.
  rewrite !existsb_exists. intros (x & Hx & E). exists x. split; [|exact E].
  now apply Hinc.
Qed.

Lemma sub_header_elements (s : RenderState) :
  Forall (fun e : Node ReactNode => tag_in sub_header_tags e = true)
         (elements (sub_header s)).
Proof.
  unfold sub_header, breadcrumb, target_switcher, text_or_hole.
  destruct (org_of s), (project_of s), (target_of s), (targets_of s) as [ts|];
    try destruct (total ts >? 1)%Z;
    cbn [elements flat_map option_map app];
    repeat first
      [ apply Forall_nil
      | apply Forall_cons; [reflexivity|]
      | apply Forall_app; split
      | apply (tag_in_weaken ["DropdownMenu.Item"; "NextLink"; "a"]);
        [ intros x Hx; cbn in Hx; unfold sub_header_tags; cbn; tauto
        | apply switcher_items_tags ] ].
Qed.

Lemma tabs_elements (s : RenderState) :
  Forall (fun e : Node ReactNode => tag_in tabs_tags e = true)
         (elements (tabs props s)).
Proof.
  unfold tabs, tab_triggers, tab_trigger, tabs_content.
  destruct (canAccessSchema s), (canAccessSettings s);
    cbn [elements flat_map app]; repeat constructor.
Qed.

End Tags.

(** ** The three outcomes of a render *)

Section Outcomes.

Context {ReactNode : Type}.
Variable props : Props ReactNode.

Lemma output_ready (s : RenderState) :
  ready s = true -> output (TargetLayout props s) = main_layout props s.
Proof.
  unfold ready. cbn [TargetLayout output].
  destruct (fetching (projectQuery s)), (fetching (targetsQuery s)),
    (truthy (error (projectQuery s))), (truthy (error (targetsQuery s)));
    cbn; congruence.
Qed.

Lemma output_not_ready (s : RenderState) :
  ready s = false ->
  output (TargetLayout props s) = spinner
  \/ exists e, output (TargetLayout props s) = query_error e.
Proof.
  unfold ready. cbn [TargetLayout output].
  destruct (fetching (projectQuery s)), (fetching (targetsQuery s)),
    (truthy (error (projectQuery s))), (truthy (error (targetsQuery s)));
    cbn; try discriminate; intros _; eauto.
Qed.

(** Neither the spinner nor the error display contains an element with one
    of the layout's tags. *)
Lemma placeholder_has_no (tag : string) (s : RenderState) :
  ready s = false ->
  tag <> "Spinner" -> tag <> "QueryError" ->
  elements_tagged tag (output (TargetLayout props s)) = [].
Proof.
  intros H Hs Hq.
  destruct (output_not_ready s H) as [E|(e & E)]; rewrite E;
    unfold spinner, query_error; rewrite elements_tagged_elem; cbn [flat_map].
  - destruct (String.eqb_spec "Spinner" tag); [congruence | reflexivity].
  - destruct (String.eqb_spec "QueryError" tag); [congruence | reflexivity].
Qed.

Lemma main_layout_tagged (tag : string) (s : RenderState) :
  tag <> "Fragment" ->
  elements_tagged tag (main_layout props s)
    = (elements_tagged tag (sub_header s) ++ elements_tagged tag (tabs props s))%list.
Proof.
  intros H. unfold main_layout. rewrite elements_tagged_elem.
  cbn [flat_map]. rewrite app_nil_r.
  destruct (String.eqb_spec "Fragment" tag); [congruence | reflexivity].
Qed.

(** The tab triggers of the main layout, by their values. *)
Lemma main_layout_triggers (s : RenderState) :
  trigger_values (main_layout props s)
    = ((if canAccessSchema s
        then [PStr "schema"; PStr "history"; PStr "operations"; PStr "laboratory"]
        else [])
       ++ (if canAccessSettings s then [PStr "settings"] else []))%list.
Proof.
  unfold trigger_values.
  rewrite main_layout_tagged by discriminate.
  rewrite (elements_tagged_absent sub_header_tags "Tabs.Trigger" _
             (sub_header_elements s) eq_refl).
  unfold tabs, tab_triggers, tab_trigger, tabs_content.
  destruct (canAccessSchema s), (canAccessSettings s); reflexivity.
Qed.

(** C2: for every render, whatever its outcome: when the actor lacks the
    registry-read scope no tab trigger with the value of Schema, History,
    Operations or Laboratory is in the output; when the actor lacks the
    settings scope no trigger with the value of Settings is. *)
Theorem tabs_gated_by_scope (s : RenderState) :
  (canAccessTarget TargetAccessScope.RegistryRead (me_of s) = false ->
   forall v,
     In v [TabValue.Schema; TabValue.History; TabValue.Operations; TabValue.Laboratory] ->
     ~ In (PStr (TabValue.to_string v))
          (trigger_values (output (TargetLayout props s))))
  /\ (canAccessTarget TargetAccessScope.Settings (me_of s) = false ->
      ~ In (PStr (TabValue.to_string TabValue.Settings))
           (trigger_values (output (TargetLayout props s)))).
Proof.
  assert (K : ready s = false ->
              trigger_values (output (TargetLayout props s)) = []).
  { intros H. unfold trigger_values.
    now rewrite (placeholder_has_no "Tabs.Trigger" s H) by discriminate. }
  split.
  - intros Hno v Hv.
    destruct (ready s) eqn:R; [|rewrite (K eq_refl); intros []].
    rewrite (output_ready s R), main_layout_triggers.
    fold (canAccessSchema s) in Hno. rewrite Hno. cbn [app].
    destruct (canAccessSettings s); cbn [In]; [|tauto].
    intros [Hin|[]].
    cbn in Hv. destruct Hv as [<-|[<-|[<-|[<-|[]]]]]; discriminate Hin.
  - intros Hno.
    destruct (ready s) eqn:R; [|rewrite (K eq_refl); intros []].
    rewrite (output_ready s R), main_layout_triggers.
    fold (canAccessSettings s) in Hno. rewrite Hno. rewrite app_nil_r.
    destruct (canAccessSchema s); cbn; intuition discriminate.
Qed.

End Outcomes.

Lemma tabs_gated_by_scope_witness :
  trigger_values (output (TargetLayout (Sample.echo TabValue.Schema) Sample.read_only)) = []
  /\ ~ In (PStr "history")
          (trigger_values (output (TargetLayout (Sample.echo TabValue.Schema) Sample.read_only)))
  /\ ~ In (PStr "settings")
          (trigger_values (output (TargetLayout (Sample.echo TabValue.Schema) Sample.read_only))).
Proof.
  split; [reflexivity|]. split.
  - exact (proj1 (tabs_gated_by_scope (Sample.echo TabValue.Schema) Sample.read_only)
                 eq_refl TabValue.History (or_intror (or_introl eq_refl))).
  - exact (proj2 (tabs_gated_by_scope (Sample.echo TabValue.Schema) Sample.read_only)
                 eq_refl).
Defined.

(** ** The sub-header, part by part *)

Section SubHeader.

Context {ReactNode : Type}.
Variable props : Props ReactNode.

Lemma text_or_hole_tagged (tag : string) (o : option string) :
  @elements_tagged ReactNode tag (text_or_hole o) = [].
Proof. now destruct o. Qed.

Lemma elements_tagged_arr (tag : string) (items : list (Node ReactNode)) :
  elements_tagged tag (Arr items) = flat_map (elements_tagged tag) items.
Proof.
  unfold elements_tagged. cbn [elements].
  induction items as [|k items IH]; [reflexivity|].
  cbn [flat_map]. now rewrite filter_app, IH.
Qed.

Lemma breadcrumb_elements (o p : string)
    (org : option OrganizationFieldsFragment) (project : option ProjectFieldsFragment) :
  Forall (fun e : Node ReactNode =>
            tag_in ["div"; "NextLink"; "Link"; "ArrowDownIcon"] e = true)
         (elements (breadcrumb o p org project)).
Proof.
  unfold breadcrumb. destruct org, project; cbn; repeat constructor.
Qed.

(** Where the elements of the sub-header with a given tag come from. *)
Lemma sub_header_tagged (tag : string) (s : RenderState) :
  existsb (String.eqb tag) ["div"; "Heading"] = false ->
  @elements_tagged ReactNode tag (sub_header s)
    = ((if String.eqb "SubHeader" tag then [sub_header s] else [])
       ++ elements_tagged tag
            (breadcrumb (organizationId (router s)) (projectId (router s))
                        (org_of s) (project_of s))
       ++ elements_tagged tag
            (target_switcher (organizationId (router s)) (projectId (router s))
                             (targetId (router s)) (targets_of s)))%list.
Proof.
  intros H. cbn [existsb] in H.
  apply orb_false_elim in H. destruct H as (Hdiv & H).
  apply orb_false_elim in H. destruct H as (Hhead & _).
  rewrite String.eqb_sym in Hdiv. rewrite String.eqb_sym in Hhead.
  unfold sub_header at 1.
  repeat (rewrite elements_tagged_elem; cbn [flat_map]).
  rewrite !text_or_hole_tagged, Hdiv, Hhead.
  cbn [app]. now rewrite !app_nil_r.
Qed.

(** The entry of one listed target: a link for every target but the current
    one. *)
Lemma switcher_item_tagged (o p t : string) (node : TargetFieldsFragment) :
  @elements_tagged ReactNode "DropdownMenu.Item" (switcher_item o p t node)
    = if negb (String.eqb (target_cleanId node) t)
      then [Elem "DropdownMenu.Item" [("key", PStr (target_cleanId node))]
              [ Elem "NextLink"
                  [("href", PStr ("/" ++ o ++ "/" ++ p ++ "/" ++ target_cleanId node))]
                  [ Elem "a" [("className", PStr "line-clamp-1 max-w-2xl")]
                      [ Text (target_name node) ] ] ]]
      else [].
Proof.
  unfold switcher_item.
  now destruct (negb (String.eqb (target_cleanId node) t)).
Qed.

Lemma switcher_items_tagged (o p t : string) (ns : list TargetFieldsFragment) :
  flat_map (@elements_tagged ReactNode "DropdownMenu.Item")
           (map (switcher_item o p t) ns)
    = map (fun node =>
             Elem "DropdownMenu.Item" [("key", PStr (target_cleanId node))]
               [ Elem "NextLink"
                   [("href", PStr ("/" ++ o ++ "/" ++ p ++ "/" ++ target_cleanId node))]
                   [ Elem "a" [("className", PStr "line-clamp-1 max-w-2xl")]
                       [ Text (target_name node) ] ] ])
          (filter (fun node => negb (String.eqb (target_cleanId node) t)) ns).
Proof.
  induction ns as [|n ns IH]; [reflexivity|].
  cbn [map flat_map filter]. rewrite switcher_item_tagged, IH.
  now destruct (negb (String.eqb (target_cleanId n) t)).
Qed.

Lemma target_switcher_hidden (tag o p t : string) (targets : option TargetConnection) :
  (forall ts, targets = Some ts -> (total ts <= 1)%Z) ->
  @elements_tagged ReactNode tag (target_switcher o p t targets) = [].
Proof.
  intros H. unfold target_switcher. destruct targets as [ts|]; [|reflexivity].
  specialize (H ts eq_refl).
  destruct (Z.gtb_spec (total ts) 1); [lia | reflexivity].
Qed.

Lemma target_switcher_shown (o p t : string) (ts : TargetConnection) :
  (total ts > 1)%Z ->
  length (@elements_tagged ReactNode "DropdownMenu" (target_switcher o p t (Some ts))) = 1
  /\ @elements_tagged ReactNode "DropdownMenu.Item" (target_switcher o p t (Some ts))
     = flat_map (elements_tagged "DropdownMenu.Item")
                (map (switcher_item o p t) (nodes ts)).
Proof.
  intros H. unfold target_switcher.
  destruct (Z.gtb_spec (total ts) 1); [|lia].
  split; repeat (rewrite elements_tagged_elem; cbn [flat_map]).
  - rewrite (elements_tagged_absent ["DropdownMenu.Item"; "NextLink"; "a"]
               "DropdownMenu" (Arr _) (switcher_items_tags o p t (nodes ts)) eq_refl).
    reflexivity.
  - rewrite elements_tagged_arr.
    cbn [String.eqb Ascii.eqb Bool.eqb app]. now rewrite !app_nil_r.
Qed.

End SubHeader.

(** ** C3: the target switcher *)

Section Switcher.

Context {ReactNode : Type}.
Variable props : Props ReactNode.

Lemma main_layout_dropdowns (tag : string) (s : RenderState) :
  tag = "DropdownMenu" \/ tag = "DropdownMenu.Item" ->
  elements_tagged tag (main_layout props s)
    = elements_tagged tag
        (target_switcher (organizationId (router s)) (projectId (router s))
                         (targetId (router s)) (targets_of s)).
Proof.
  intros H.
  rewrite main_layout_tagged by (destruct H as [->| ->]; discriminate).
  rewrite (elements_tagged_absent tabs_tags tag _ (tabs_elements props s))
    by (destruct H as [->| ->]; reflexivity).
  rewrite sub_header_tagged by (destruct H as [->| ->]; reflexivity).
  rewrite (elements_tagged_absent ["div"; "NextLink"; "Link"; "ArrowDownIcon"] tag _
             (breadcrumb_elements _ _ _ _))
    by (destruct H as [->| ->]; reflexivity).
  destruct H as [->| ->]; cbn [String.eqb Ascii.eqb Bool.eqb app];
    now rewrite app_nil_r.
Qed.

(** C3 (amended): the switcher is decided by the total count reported with
    the list, [targets.total].  When it is at most 1 no render shows a
    dropdown.  When it is greater than 1 and both fetches have settled
    without error, one dropdown is rendered and its items are exactly the
    listed targets whose cleanId differs from the route's target identifier,
    in list order, each a link to [/{org}/{project}/{cleanId}] labelled with
    the target's name. *)
Theorem target_switcher_by_total (s : RenderState) (ts : TargetConnection) :
  targets_of s = Some ts ->
  ((total ts <= 1)%Z ->
   elements_tagged "DropdownMenu" (output (TargetLayout props s)) = []
   /\ elements_tagged "DropdownMenu.Item" (output (TargetLayout props s)) = [])
  /\ ((total ts > 1)%Z ->
      ready s = true ->
      length (elements_tagged "DropdownMenu" (output (TargetLayout props s))) = 1
      /\ elements_tagged "DropdownMenu.Item" (output (TargetLayout props s))
         = map (fun node =>
                  Elem "DropdownMenu.Item" [("key", PStr (target_cleanId node))]
                    [ Elem "NextLink"
                        [("href",
                          PStr ("/" ++ organizationId (router s)
                                ++ "/" ++ projectId (router s)
                                ++ "/" ++ target_cleanId node))]
                        [ Elem "a" [("className", PStr "line-clamp-1 max-w-2xl")]
                            [ Text (target_name node) ] ] ])
               (filter (fun node =>
                          negb (String.eqb (target_cleanId node) (targetId (router s))))
                       (nodes ts))).
Proof.
  intros E. split.
  - intros Hle.
    destruct (ready s) eqn:R.
    + rewrite (output_ready props s R).
      rewrite !main_layout_dropdowns by tauto.
      split; apply target_switcher_hidden; rewrite E; intros ? [= <-]; exact Hle.
    + split; apply placeholder_has_no; (exact R || discriminate).
  - intros Hgt R. rewrite (output_ready props s R).
    rewrite !main_layout_dropdowns by tauto. rewrite E.
    destruct (target_switcher_shown (ReactNode := ReactNode)
                (organizationId (router s)) (projectId (router s))
                (targetId (router s)) ts Hgt) as (H1 & H2).
    split; [exact H1|]. rewrite H2. apply switcher_items_tagged.
Qed.

End Switcher.

(** C3, as stated, fails in both directions, because the test is on
    [targets.total] and not on the length of [targets.nodes]: a list of one
    node reported with a total of two gets a dropdown (with no item), and a
    list of two nodes reported with a total of one gets none. *)
Lemma switcher_follows_total_not_length :
  (targets_of Sample.short_listing
     = Some {| nodes := [Sample.prod]; total := 2 |}
   /\ length [Sample.prod] <= 1
   /\ ready Sample.short_listing = true
   /\ length (elements_tagged "DropdownMenu"
                (output (TargetLayout (Sample.echo TabValue.Schema) Sample.short_listing))) = 1
   /\ elements_tagged "DropdownMenu.Item"
        (output (TargetLayout (Sample.echo TabValue.Schema) Sample.short_listing)) = [])
  /\ (targets_of Sample.long_listing
        = Some {| nodes := [Sample.prod; Sample.stage]; total := 1 |}
      /\ length [Sample.prod; Sample.stage] > 1
      /\ ready Sample.long_listing = true
      /\ elements_tagged "DropdownMenu"
           (output (TargetLayout (Sample.echo TabValue.Schema) Sample.long_listing)) = []).
Proof. repeat split; try reflexivity; cbn; lia. Qed.

(** The scenario of the specification: one entry, Staging, linking to
    [/acme/api/stage]. *)
Lemma target_switcher_by_total_witness :
  elements_tagged "DropdownMenu.Item"
    (output (TargetLayout (Sample.echo TabValue.Schema) Sample.scenario))
  = [ Elem "DropdownMenu.Item" [("key", PStr "stage")]
        [ Elem "NextLink" [("href", PStr "/acme/api/stage")]
            [ Elem "a" [("className", PStr "line-clamp-1 max-w-2xl")]
                [ Text "Staging" ] ] ] ].
Proof.
  exact (proj2 (proj2 (target_switcher_by_total (Sample.echo TabValue.Schema)
                         Sample.scenario
                         {| nodes := [Sample.prod; Sample.stage]; total := 2 |}
                         eq_refl)
                      eq_refl eq_refl)).
Defined.

(** ** C6, C8 and C10: tabs, breadcrumb and the content slot *)

Section Ready.

Context {ReactNode : Type}.
Variable props : Props ReactNode.

Lemma main_layout_tabs (tag : string) (s : RenderState) :
  existsb (String.eqb tag) ("Fragment" :: sub_header_tags) = false ->
  elements_tagged tag (main_layout props s) = elements_tagged tag (tabs props s).
Proof.
  intros H. cbn [existsb] in H. apply orb_false_elim in H. destruct H as (Hf & H).
  rewrite main_layout_tagged
    by (intros ->; discriminate Hf).
  now rewrite (elements_tagged_absent sub_header_tags tag _ (sub_header_elements s) H).
Qed.

(** C6: in the main layout (both fetches settled without error) of an actor
    holding both capabilities, the tab list holds exactly the five triggers
    Schema, History, Operations, Laboratory, Settings, in this order; Schema
    links to [/{org}/{project}/{target}] and the others to that path followed
    by [/history], [/operations], [/laboratory], [/settings]; and there is
    exactly one content region, whose value is the active tab value and whose
    body is what the caller's [children] function returns. *)
Theorem all_tabs_in_order (s : RenderState) :
  ready s = true ->
  canAccessTarget TargetAccessScope.RegistryRead (me_of s) = true ->
  canAccessTarget TargetAccessScope.Settings (me_of s) = true ->
  let base := "/" ++ organizationId (router s) ++ "/" ++ projectId (router s)
              ++ "/" ++ targetId (router s) in
  let trigger := fun (href v label : string) =>
    Elem "NextLink" [("passHref", PBool true); ("href", PStr href)]
      [ Elem "Tabs.Trigger" [("value", PStr v); ("asChild", PBool true)]
          [ Elem "a" [] [ Text label ] ] ] in
  elements_tagged "Tabs.List" (output (TargetLayout props s))
    = [ Elem "Tabs.List" []
          [ trigger base "schema" "Schema";
            trigger (base ++ "/history") "history" "History";
            trigger (base ++ "/operations") "operations" "Operations";
            trigger (base ++ "/laboratory") "laboratory" "Laboratory";
            trigger (base ++ "/settings") "settings" "Settings" ] ]
  /\ elements_tagged "Tabs.Content" (output (TargetLayout props s))
     = [ Elem "Tabs.Content"
           [("value", PStr (TabValue.to_string (value props)));
            ("className", prop_of_option (className props))]
           [ Foreign (children props
               {| target := target_of s;
                  project := project_of s;
                  organization := org_of s |}) ] ].
Proof.
  intros R Hschema Hsettings base trigger.
  rewrite (output_ready props s R).
  rewrite !main_layout_tabs by reflexivity.
  unfold tabs, tab_triggers, tab_trigger, tabs_content, canAccessSchema, canAccessSettings.
  rewrite Hschema, Hsettings. split; reflexivity.
Qed.

(** C8: in the main layout the first child of the sub-header is the
    breadcrumb - the organization's name linking to [/{org}], an arrow, the
    project's name linking to [/{org}/{project}] - when the organization and
    the project are both defined; when either is undefined that child is
    empty and no breadcrumb link is anywhere in the output. *)
Theorem breadcrumb_when_both_loaded (s : RenderState) :
  ready s = true ->
  (forall org project,
     org_of s = Some org -> project_of s = Some project ->
     exists rest,
       elements_tagged "SubHeader" (output (TargetLayout props s))
       = [ Elem "SubHeader" []
             (Elem "div"
                [("className",
                  PStr "wrapper flex items-center text-xs font-medium text-gray-500")]
                [ Elem "NextLink"
                    [("href", PStr ("/" ++ organizationId (router s)));
                     ("passHref", PBool true)]
                    [ Elem "Link" [("className", PStr "line-clamp-1 max-w-[250px]")]
                        [ Text (org_name org) ] ];
                  Elem "ArrowDownIcon"
                    [("className", PStr "mx-1 h-4 w-4 -rotate-90 stroke-[1px]")] [];
                  Elem "NextLink"
                    [("href", PStr ("/" ++ organizationId (router s)
                                    ++ "/" ++ projectId (router s)));
                     ("passHref", PBool true)]
                    [ Elem "Link" [("className", PStr "line-clamp-1 max-w-[250px]")]
                        [ Text (project_name project) ] ] ]
              :: rest) ])
  /\ (org_of s = None \/ project_of s = None ->
      (exists rest,
         elements_tagged "SubHeader" (output (TargetLayout props s))
         = [ Elem "SubHeader" [] (Hole :: rest) ])
      /\ elements_tagged "Link" (output (TargetLayout props s)) = []).
Proof.
  intros R. rewrite (output_ready props s R).
  assert (Hsub : elements_tagged "SubHeader" (main_layout props s) = [sub_header s]).
  { rewrite main_layout_tagged by discriminate.
    rewrite (elements_tagged_absent tabs_tags "SubHeader" _ (tabs_elements props s) eq_refl).
    rewrite sub_header_tagged by reflexivity.
    rewrite (elements_tagged_absent ["div"; "NextLink"; "Link"; "ArrowDownIcon"]
               "SubHeader" _ (breadcrumb_elements _ _ _ _) eq_refl).
    unfold target_switcher.
    destruct (targets_of s) as [ts|]; [destruct (total ts >? 1)%Z|];
      try reflexivity.
    repeat (rewrite elements_tagged_elem; cbn [flat_map]).
    now rewrite (elements_tagged_absent ["DropdownMenu.Item"; "NextLink"; "a"]
                   "SubHeader" (Arr _) (switcher_items_tags _ _ _ (nodes ts)) eq_refl). }
  assert (Hlink : elements_tagged "Link" (main_layout props s)
                  = elements_tagged "Link"
                      (breadcrumb (organizationId (router s)) (projectId (router s))
                                  (org_of s) (project_of s))).
  { rewrite main_layout_tagged by discriminate.
    rewrite (elements_tagged_absent tabs_tags "Link" _ (tabs_elements props s) eq_refl).
    rewrite sub_header_tagged by reflexivity.
    unfold target_switcher.
    destruct (targets_of s) as [ts|]; [destruct (total ts >? 1)%Z|];
      try (cbn [String.eqb Ascii.eqb Bool.eqb app]; now rewrite !app_nil_r).
    repeat (rewrite elements_tagged_elem; cbn [flat_map]).
    rewrite (elements_tagged_absent ["DropdownMenu.Item"; "NextLink"; "a"]
               "Link" (Arr _) (switcher_items_tags _ _ _ (nodes ts)) eq_refl).
    cbn [String.eqb Ascii.eqb Bool.eqb app]. now rewrite !app_nil_r. }
  rewrite Hsub, Hlink. unfold sub_header. split.
  - intros org project -> ->. eexists. reflexivity.
  - intros [-> | ->].
    + split; [eexists; reflexivity | reflexivity].
    + destruct (org_of s); (split; [eexists; reflexivity | reflexivity]).
Qed.

(** C10: when both fetches have settled without error the main layout is
    rendered whether or not the entities were found, and [children] is called
    with whatever was resolved.  An entity that is absent is handed over as
    undefined, so the argument is then no value of the type the render prop
    declares, whose three fields are not optional. *)
Theorem settled_layout_calls_children (s : RenderState) :
  ready s = true ->
  let given := {| target := target_of s;
                  project := project_of s;
                  organization := org_of s |} in
  output (TargetLayout props s) = main_layout props s
  /\ elements_tagged "Tabs.Content" (output (TargetLayout props s))
     = [ Elem "Tabs.Content"
           [("value", PStr (TabValue.to_string (value props)));
            ("className", prop_of_option (className props))]
           [ Foreign (children props given) ] ]
  /\ (target_of s = None \/ project_of s = None \/ org_of s = None ->
      forall d : DeclaredRenderProps, at_run_time d <> given)
  /\ (target_of s = None -> project_of s = None -> org_of s = None ->
      given = {| target := None; project := None; organization := None |}).
Proof.
  intros R given. split; [exact (output_ready props s R)|].
  rewrite (output_ready props s R).
  rewrite main_layout_tabs by reflexivity.
  split; [|split].
  - unfold tabs, tab_triggers, tab_trigger, tabs_content.
    destruct (canAccessSchema s), (canAccessSettings s); reflexivity.
  - unfold given, at_run_time.
    intros [H|[H|H]] d; rewrite H; intros K; discriminate K.
  - unfold given. now intros -> -> ->.
Qed.

End Ready.

Lemma all_tabs_in_order_witness :
  map (fun e => prop "href" (props_of e))
      (flat_map kids_of
         (elements_tagged "Tabs.List"
            (output (TargetLayout (Sample.echo TabValue.Operations) Sample.scenario))))
    = [ PStr "/acme/api/prod";
        PStr "/acme/api/prod/history";
        PStr "/acme/api/prod/operations";
        PStr "/acme/api/prod/laboratory";
        PStr "/acme/api/prod/settings" ]
  /\ map (fun e => prop "value" (props_of e))
         (elements_tagged "Tabs.Content"
            (output (TargetLayout (Sample.echo TabValue.Operations) Sample.scenario)))
     = [ PStr "operations" ].
Proof.
  destruct (all_tabs_in_order (Sample.echo TabValue.Operations) Sample.scenario
              eq_refl eq_refl eq_refl) as (Hlist & Hcontent).
  rewrite Hlist, Hcontent. split; reflexivity.
Defined.

Lemma breadcrumb_when_both_loaded_witness :
  exists rest,
    elements_tagged "SubHeader"
      (output (TargetLayout (Sample.echo TabValue.Schema) Sample.scenario))
    = [ Elem "SubHeader" []
          (Elem "div"
             [("className",
               PStr "wrapper flex items-center text-xs font-medium text-gray-500")]
             [ Elem "NextLink" [("href", PStr "/acme"); ("passHref", PBool true)]
                 [ Elem "Link" [("className", PStr "line-clamp-1 max-w-[250px]")]
                     [ Text "Acme" ] ];
               Elem "ArrowDownIcon"
                 [("className", PStr "mx-1 h-4 w-4 -rotate-90 stroke-[1px]")] [];
               Elem "NextLink" [("href", PStr "/acme/api"); ("passHref", PBool true)]
                 [ Elem "Link" [("className", PStr "line-clamp-1 max-w-[250px]")]
                     [ Text "API" ] ] ]
           :: rest) ].
Proof.
  exact (proj1 (breadcrumb_when_both_loaded (Sample.echo TabValue.Schema)
                  Sample.scenario eq_refl)
               (Sample.acme Sample.owner) Sample.api eq_refl eq_refl).
Defined.

Lemma settled_layout_calls_children_witness :
  elements_tagged "Tabs.Content"
    (output (TargetLayout (Sample.echo TabValue.Schema) Sample.nothing_found))
  = [ Elem "Tabs.Content" [("value", PStr "schema"); ("className", PUndefined)]
        [ Foreign {| target := None; project := None; organization := None |} ] ].
Proof.
  exact (proj1 (proj2 (settled_layout_calls_children (Sample.echo TabValue.Schema)
                         Sample.nothing_found eq_refl))).
Defined.

(** * Further properties of the layout *)

(** ** The two not-found effects over time *)

Section Effects.

Context {ReactNode : Type}.
Variable props : Props ReactNode.

Lemma project_effect_fires (f : Fiber) (s : RenderState) :
  fetching (projectQuery s) = false ->
  project_of s = None ->
  (forall d, project_effect_deps f = Some d ->
             project_deps_same d (project_deps s) = false) ->
  let c := commit f (TargetLayout props s) in
  project_navigation c = [push "/404" (JS.replace_hash_dot_star (asPath (router s)))]
  /\ project_effect_deps (fiber c)
     = Some (router_ref (router s), project_value s, false).
Proof.
  intros Hf Hp Hd. cbn.
  unfold useEffect, project_effect_body, project_deps. cbn.
  rewrite Hf, Hp. cbn.
  destruct (project_effect_deps f) as [d|] eqn:E; [|split; reflexivity].
  specialize (Hd d eq_refl). unfold project_deps in Hd.
  rewrite Hf in Hd. rewrite Hd. split; reflexivity.
Qed.

Lemma nullable_same_absent (v w : Nullable ProjectFieldsFragment) :
  entity w = None ->
  nullable_same project_same v w = true <-> v = w.
Proof.
  destruct v, w; cbn; intros H; split; intros K;
    (reflexivity || discriminate || idtac).
Qed.

Lemma project_effect_quiet (ref : nat) (v : Nullable ProjectFieldsFragment)
    (rest : list RenderState) :
  entity v = None ->
  forall f : Fiber,
  project_effect_deps f = Some (ref, v, false) ->
  Forall (fun s' => router_ref (router s') = ref
                    /\ fetching (projectQuery s') = false
                    /\ project_value s' = v) rest ->
  map project_navigation (run props f rest) = repeat [] (length rest).
Proof.
  intros Hv.
  induction rest as [|s' rest IH]; intros f Hf Hall; [reflexivity|].
  inversion Hall as [|? ? (Hr & Hq & Hp) Hrest]; subst.
  cbn [run map length repeat].
  assert (K : useEffect project_deps_same (project_effect_deps f)
                (project_effect (TargetLayout props s'))
              = (Some (router_ref (router s'), project_value s', false), [])).
  { rewrite Hf. cbn. unfold project_deps. rewrite Hq. cbn.
    rewrite Nat.eqb_refl.
    now rewrite (proj2 (nullable_same_absent _ _ Hv) eq_refl). }
  f_equal.
  - unfold commit. cbn [project_navigation]. now rewrite K.
  - apply IH; [|exact Hrest].
    unfold commit. cbn [fiber project_effect_deps]. now rewrite K.
Qed.

(** X1: the second effect treats the project as the first treats the
    target, except that a project can be missing as [undefined] (no data) or
    as [null] (data without the project).  When the project fetch is not
    fetching and the project is missing, reached by mounting or after a
    commit with another router object, another project value or the fetch
    in flight, the commit pushes [/404] with the path cut at its fragment;
    the renders that follow with the same router object, still not fetching
    and the project missing in the same way push nothing. *)
Theorem missing_project_redirects_once
    (f : Fiber) (s : RenderState) (rest : list RenderState) :
  fetching (projectQuery s) = false ->
  project_of s = None ->
  (project_effect_deps f = None
   \/ exists r v b,
        project_effect_deps f = Some (r, v, b)
        /\ (r <> router_ref (router s) \/ v <> project_value s \/ b = true)) ->
  Forall (fun s' => router_ref (router s') = router_ref (router s)
                    /\ fetching (projectQuery s') = false
                    /\ project_value s' = project_value s) rest ->
  map project_navigation (run props f (s :: rest))
    = [push "/404" (JS.replace_hash_dot_star (asPath (router s)))]
        :: repeat [] (length rest).
Proof.
  intros Hf Hp Hdue Hrest.
  assert (Hd : forall d, project_effect_deps f = Some d ->
                         project_deps_same d (project_deps s) = false).
  { destruct Hdue as [Hnone | (r & v & b & Hsome & Hdiff)]; intros d Hd;
      [congruence|].
    rewrite Hsome in Hd. injection Hd as <-.
    unfold project_deps. rewrite Hf. cbn.
    destruct Hdiff as [Hr | [Hne | ->]].
    - apply Nat.eqb_neq in Hr. now rewrite Hr.
    - destruct (nullable_same project_same v (project_value s)) eqn:K.
      + apply (nullable_same_absent _ _ Hp) in K. now elim Hne.
      + now rewrite andb_false_r.
    - now rewrite andb_false_r. }
  destruct (project_effect_fires f s Hf Hp Hd) as (Hnav & Hdeps).
  cbn [run map]. f_equal; [exact Hnav|].
  exact (project_effect_quiet _ _ rest Hp _ Hdeps Hrest).
Qed.

(** What an effect does in one commit: nothing, or what its body says. *)
Lemma useEffect_runs_body_or_nothing {D : Type} (same : D -> D -> bool)
    (last : option D) (effect : D * list Navigation) :
  snd (useEffect same last effect) = []
  \/ snd (useEffect same last effect) = snd effect.
Proof.
  unfold useEffect. destruct last as [d|]; [|now right].
  destruct (same d (fst effect)); [now left | now right].
Qed.

(** X2: as long as each fetch is in flight or has its entity, neither effect
    ever navigates, whatever the component went through before. *)
Theorem no_not_found_redirect_while_present_or_fetching
    (states : list RenderState) :
  forall f : Fiber,
  Forall (fun s => (fetching (targetsQuery s) = true \/ target_of s <> None)
                   /\ (fetching (projectQuery s) = true \/ project_of s <> None))
         states ->
  Forall (fun c => targets_navigation c = [] /\ project_navigation c = [])
         (run props f states).
Proof.
  induction states as [|s states IH]; intros f Hall; [constructor|].
  inversion Hall as [|? ? (Ht & Hp) Hrest]; subst.
  cbn [run]. constructor; [|apply IH; exact Hrest].
  assert (Bt : targets_effect_body s = []).
  { unfold targets_effect_body.
    destruct Ht as [-> | Ht]; [reflexivity|].
    destruct (target_of s); [|now elim Ht].
    cbn. now rewrite andb_false_r. }
  assert (Bp : project_effect_body s = []).
  { unfold project_effect_body.
    destruct Hp as [-> | Hp]; [reflexivity|].
    destruct (project_of s); [|now elim Hp].
    cbn. now rewrite andb_false_r. }
  split; cbn [commit targets_navigation project_navigation].
  - destruct (useEffect_runs_body_or_nothing targets_deps_same
                (targets_effect_deps f) (targets_effect (TargetLayout props s)))
      as [E|E]; rewrite E; [reflexivity | exact Bt].
  - destruct (useEffect_runs_body_or_nothing project_deps_same
                (project_effect_deps f) (project_effect (TargetLayout props s)))
      as [E|E]; rewrite E; [reflexivity | exact Bp].
Qed.

(** After a commit the fiber remembers the fetching flag of that render. *)
Lemma fiber_remembers_fetching (f : Fiber) (s : RenderState) :
  exists r t,
    targets_effect_deps (fiber (commit f (TargetLayout props s)))
    = Some (r, t, fetching (targetsQuery s)).
Proof.
  cbn [commit fiber targets_effect_deps]. unfold useEffect.
  cbn [TargetLayout targets_effect fst snd]. unfold targets_deps.
  destruct (targets_effect_deps f) as [[[r t] b]|]; [|cbn [fst]; eauto].
  destruct (targets_deps_same (r, t, b) _) eqn:E; cbn [fst]; [|eauto].
  cbn in E. apply andb_true_iff in E. destruct E as (_ & E).
  apply Bool.eqb_prop in E. subst b. eauto.
Qed.

(** X3: the completion of the targets fetch always triggers the redirect for
    a missing target: a render with the fetch in flight followed by one where
    it is not fetching and the target is undefined pushes [/404] at the
    second commit, whatever happened before and whatever else changed. *)
Theorem fetch_completion_triggers_redirect
    (f : Fiber) (s0 s : RenderState) :
  fetching (targetsQuery s0) = true ->
  fetching (targetsQuery s) = false ->
  target_of s = None ->
  map targets_navigation (run props f [s0; s])
    = [ [] ; [push "/404" (JS.replace_hash_dot_star (asPath (router s)))] ].
Proof.
  intros H0 Hf Ht. cbn [run map]. f_equal.
  - cbn [commit targets_navigation].
    destruct (useEffect_runs_body_or_nothing targets_deps_same
                (targets_effect_deps f) (targets_effect (TargetLayout props s0)))
      as [E|E]; rewrite E; [reflexivity|].
    cbn. unfold targets_effect_body. now rewrite H0.
  - f_equal.
    destruct (fiber_remembers_fetching f s0) as (r & t & E).
    apply (targets_effect_fires props _ s Hf Ht).
    intros d Hd. rewrite E in Hd. injection Hd as <-.
    unfold targets_deps. rewrite H0, Hf. cbn.
    now rewrite andb_false_r.
Qed.

(** X4: a failed fetch is also a missing entity.  When the targets fetch
    has settled with an error and without data, the first commit shows the
    error display and pushes [/404] as well. *)
Theorem failed_fetch_also_redirects (s : RenderState) (e : CombinedError) :
  data (targetsQuery s) = None ->
  fetching (targetsQuery s) = false ->
  fetching (projectQuery s) = false ->
  error (targetsQuery s) = Some e ->
  let c := commit mounting (TargetLayout props s) in
  rendered c = query_error (or_else (error (projectQuery s)) (Some e))
  /\ targets_navigation c
     = [push "/404" (JS.replace_hash_dot_star (asPath (router s)))].
Proof.
  intros Hd Hf Hp He c. split.
  - unfold c. cbn [commit rendered].
    rewrite (settled_error_renders_error props s Hp Hf) by (right; congruence).
    now rewrite He.
  - assert (Ht : target_of s = None)
      by (unfold target_of, targets_of; now rewrite Hd).
    apply (targets_effect_fires props mounting s Hf Ht).
    intros d Hsome. discriminate Hsome.
Qed.

(** X5: the two effects never navigate anywhere but to [/404]: in every
    commit of every run each of them pushes at most once, and what it pushes
    is [/404] with the path of that render's router, cut at its fragment. *)
Theorem effects_push_only_not_found (states : list RenderState) :
  forall f : Fiber,
  Forall2 (fun s c =>
             (length (targets_navigation c) <= 1
              /\ length (project_navigation c) <= 1)
             /\ forall n, In n (targets_navigation c ++ project_navigation c) ->
                          n = push "/404" (JS.replace_hash_dot_star (asPath (router s))))
          states (run props f states).
Proof.
  induction states as [|s states IH]; intros f; [constructor|].
  cbn [run]. constructor; [|apply IH].
  cbn [commit targets_navigation project_navigation].
  assert (Lt : length (targets_effect_body s) <= 1)
    by (unfold targets_effect_body;
        destruct (negb _ && negb _)%bool; cbn; lia).
  assert (Lp : length (project_effect_body s) <= 1)
    by (unfold project_effect_body;
        destruct (negb _ && negb _)%bool; cbn; lia).
  destruct (useEffect_runs_body_or_nothing targets_deps_same
              (targets_effect_deps f) (targets_effect (TargetLayout props s)))
    as [Et|Et];
  destruct (useEffect_runs_body_or_nothing project_deps_same
              (project_effect_deps f) (project_effect (TargetLayout props s)))
    as [Ep|Ep]; rewrite Et, Ep; cbn [TargetLayout targets_effect project_effect snd];
    (split; [split; (exact Lt || exact Lp || (cbn; lia))|]);
    intros n Hn; apply (not_found_push s n); apply in_or_app;
    apply in_app_or in Hn; destruct Hn as [Hn|Hn];
    (now left) || (now right) || (now destruct Hn).
Qed.

(** X6: when the target and the project are both missing once their fetches
    have settled, the first commit pushes [/404] twice, once from each
    effect and with the same path. *)
Theorem both_missing_push_twice (s : RenderState) :
  fetching (targetsQuery s) = false ->
  fetching (projectQuery s) = false ->
  target_of s = None ->
  project_of s = None ->
  let c := commit mounting (TargetLayout props s) in
  (targets_navigation c ++ project_navigation c)%list
    = [ push "/404" (JS.replace_hash_dot_star (asPath (router s)));
        push "/404" (JS.replace_hash_dot_star (asPath (router s))) ].
Proof.
  intros Ht Hp Et Ep c.
  destruct (targets_effect_fires props mounting s Ht Et) as (H1 & _);
    [intros d E; discriminate E|].
  destruct (project_effect_fires mounting s Hp Ep) as (H2 & _);
    [intros d E; discriminate E|].
  unfold c. now rewrite H1, H2.
Qed.

End Effects.

(** ** What the caller's function is given, and how often *)

Section Children.

Context {ReactNode : Type}.
Variable props : Props ReactNode.

Lemma switcher_items_foreigns (o p t : string) (ns : list TargetFieldsFragment) :
  flat_map (@foreigns ReactNode) (map (switcher_item o p t) ns) = [].
Proof.
  induction ns as [|n ns IH]; [reflexivity|].
  cbn [map flat_map]. rewrite IH. unfold switcher_item.
  now destruct (negb (String.eqb (target_cleanId n) t)).
Qed.

Lemma sub_header_foreigns (s : RenderState) :
  @foreigns ReactNode (sub_header s) = [].
Proof.
  unfold sub_header, breadcrumb, target_switcher, text_or_hole.
  destruct (org_of s), (project_of s), (target_of s), (targets_of s) as [ts|];
    try destruct (total ts >? 1)%Z;
    cbn [foreigns flat_map option_map app];
    rewrite ?switcher_items_foreigns; reflexivity.
Qed.

Lemma tabs_foreigns (s : RenderState) :
  foreigns (tabs props s)
    = [ children props {| target := target_of s;
                          project := project_of s;
                          organization := org_of s |} ].
Proof.
  unfold tabs, tab_triggers, tab_trigger, tabs_content.
  now destruct (canAccessSchema s), (canAccessSettings s).
Qed.

Lemma ready_output_foreigns (s : RenderState) :
  ready s = true ->
  foreigns (output (TargetLayout props s))
    = [ children props {| target := target_of s;
                          project := project_of s;
                          organization := org_of s |} ].
Proof.
  intros R. rewrite (output_ready props s R). unfold main_layout.
  cbn [foreigns flat_map]. now rewrite sub_header_foreigns, tabs_foreigns.
Qed.

(** X7: [children] is called in the main layout and nowhere else: an output
    holds exactly one node of the caller when both fetches have settled
    without error - whether or not the actor may see any tab - and none
    while a fetch is in flight or after an error. *)
Theorem children_called_once_when_ready (s : RenderState) :
  foreigns (output (TargetLayout props s))
    = if ready s
      then [ children props {| target := target_of s;
                               project := project_of s;
                               organization := org_of s |} ]
      else [].
Proof.
  destruct (ready s) eqn:R.
  - exact (ready_output_foreigns s R).
  - destruct (output_not_ready props s R) as [E|(e & E)]; rewrite E;
      reflexivity.
Qed.

(** [find] returns the first node with the route's cleanId. *)
Lemma target_of_first_match (s : RenderState) (ts : TargetConnection)
    (pre post : list TargetFieldsFragment) (n : TargetFieldsFragment) :
  targets_of s = Some ts ->
  nodes ts = (pre ++ n :: post)%list ->
  target_cleanId n = targetId (router s) ->
  (forall m, In m pre -> target_cleanId m <> targetId (router s)) ->
  target_of s = Some n.
Proof.
  intros E Hn Hid Hpre. unfold target_of. rewrite E, Hn. clear E Hn.
  induction pre as [|m pre IH]; cbn [app find].
  - now rewrite Hid, String.eqb_refl.
  - destruct (String.eqb_spec (target_cleanId m) (targetId (router s))) as [K|_].
    + exfalso. apply (Hpre m); [now left | exact K].
    + apply IH. intros m' Hin. apply Hpre. now right.
Qed.

Lemma target_switcher_elements (o p t : string) (targets : option TargetConnection) :
  Forall (fun e : Node ReactNode =>
            tag_in ["DropdownMenu"; "DropdownMenu.Trigger"; "Button";
                    "ArrowDownIcon"; "DropdownMenu.Content";
                    "DropdownMenu.Item"; "NextLink"; "a"] e = true)
         (elements (target_switcher o p t targets)).
Proof.
  unfold target_switcher.
  destruct targets as [ts|]; [destruct (total ts >? 1)%Z|];
    cbn [elements flat_map app];
    repeat first
      [ apply Forall_nil
      | apply Forall_cons; [reflexivity|]
      | apply Forall_app; split
      | apply (tag_in_weaken ["DropdownMenu.Item"; "NextLink"; "a"]);
        [ intros x Hx; cbn in Hx; cbn; tauto
        | apply switcher_items_tags ] ].
Qed.

Lemma main_layout_heading (s : RenderState) :
  elements_tagged "Heading" (main_layout props s)
    = [ Elem "Heading"
          [("size", PStr "2xl"); ("className", PStr "line-clamp-1 max-w-2xl")]
          [ text_or_hole (option_map target_name (target_of s)) ] ].
Proof.
  rewrite main_layout_tagged by discriminate.
  rewrite (elements_tagged_absent tabs_tags "Heading" _ (tabs_elements props s) eq_refl).
  unfold sub_header.
  repeat (rewrite elements_tagged_elem; cbn [flat_map]).
  rewrite !text_or_hole_tagged.
  rewrite (elements_tagged_absent ["div"; "NextLink"; "Link"; "ArrowDownIcon"]
             "Heading" _ (breadcrumb_elements _ _ _ _) eq_refl).
  rewrite (elements_tagged_absent _ "Heading" _
             (target_switcher_elements _ _ _ _) eq_refl).
  reflexivity.
Qed.

(** X8: when several listed nodes carry the route's cleanId the first one
    in list order is the target: in the main layout the heading shows its
    name and [children] is given that node. *)
Theorem first_listed_match_is_shown (s : RenderState) (ts : TargetConnection)
    (pre post : list TargetFieldsFragment) (n : TargetFieldsFragment) :
  ready s = true ->
  targets_of s = Some ts ->
  nodes ts = (pre ++ n :: post)%list ->
  target_cleanId n = targetId (router s) ->
  (forall m, In m pre -> target_cleanId m <> targetId (router s)) ->
  elements_tagged "Heading" (output (TargetLayout props s))
    = [ Elem "Heading"
          [("size", PStr "2xl"); ("className", PStr "line-clamp-1 max-w-2xl")]
          [ Text (target_name n) ] ]
  /\ foreigns (output (TargetLayout props s))
     = [ children props {| target := Some n;
                           project := project_of s;
                           organization := org_of s |} ].
Proof.
  intros R E Hn Hid Hpre.
  pose proof (target_of_first_match s ts pre post n E Hn Hid Hpre) as Ht.
  rewrite (ready_output_foreigns s R).
  rewrite (output_ready props s R), main_layout_heading, Ht.
  split; reflexivity.
Qed.

End Children.

(** ** Error display, triggers and switcher entries *)

Section Display.

Context {ReactNode : Type}.
Variable props : Props ReactNode.

(** X9: the error display is never handed [undefined]: whenever a
    [QueryError] element is in the output it is the only one, and its
    [error] prop is the project fetch's error if there is one and the
    targets fetch's error otherwise. *)
Theorem query_error_always_has_error (s : RenderState) (e : Node ReactNode) :
  In e (elements_tagged "QueryError" (output (TargetLayout props s))) ->
  exists err,
    or_else (error (projectQuery s)) (error (targetsQuery s)) = Some err
    /\ e = Elem "QueryError" [("error", PError err)] []
    /\ elements_tagged "QueryError" (output (TargetLayout props s)) = [e].
Proof.
  cbn [TargetLayout output].
  destruct (fetching (projectQuery s) || fetching (targetsQuery s))%bool;
    [intros []|].
  destruct (truthy (error (projectQuery s)) || truthy (error (targetsQuery s)))%bool
    eqn:T.
  - destruct (error (projectQuery s)) as [ep|];
      [|destruct (error (targetsQuery s)) as [et|]; [|discriminate T]];
      cbn; intros [<-|[]]; eauto.
  - rewrite main_layout_tagged by discriminate.
    rewrite (elements_tagged_absent sub_header_tags "QueryError" _
               (sub_header_elements s) eq_refl).
    rewrite (elements_tagged_absent tabs_tags "QueryError" _
               (tabs_elements props s) eq_refl).
    intros [].
Qed.

(** X10: the tab triggers of a render, completely: none unless both
    fetches have settled without error; then Schema, History, Operations and
    Laboratory exactly when the actor has the registry-read capability,
    followed by Settings exactly when the actor has the settings capability.
    The two capabilities act independently. *)
Theorem tab_triggers_by_capability (s : RenderState) :
  trigger_values (output (TargetLayout props s))
    = if ready s
      then ((if canAccessSchema s
             then [PStr "schema"; PStr "history"; PStr "operations"; PStr "laboratory"]
             else [])
            ++ (if canAccessSettings s then [PStr "settings"] else []))%list
      else [].
Proof.
  destruct (ready s) eqn:R.
  - rewrite (output_ready props s R). apply main_layout_triggers.
  - unfold trigger_values.
    now rewrite (placeholder_has_no props "Tabs.Trigger" s R) by discriminate.
Qed.

Lemma output_item_keys (s : RenderState) (ts : TargetConnection) :
  ready s = true ->
  targets_of s = Some ts ->
  (total ts > 1)%Z ->
  item_keys (output (TargetLayout props s))
    = map (fun node => PStr (target_cleanId node))
          (filter (fun node =>
                     negb (String.eqb (target_cleanId node) (targetId (router s))))
                  (nodes ts)).
Proof.
  intros R E Hgt. unfold item_keys.
  rewrite (output_ready props s R).
  rewrite main_layout_dropdowns by tauto. rewrite E.
  destruct (target_switcher_shown (ReactNode := ReactNode)
              (organizationId (router s)) (projectId (router s))
              (targetId (router s)) ts Hgt) as (_ & H).
  rewrite H, switcher_items_tagged, map_map. reflexivity.
Qed.

Lemma others_of_unique_list (t : string) (ns : list TargetFieldsFragment) :
  NoDup (map target_cleanId ns) ->
  (exists n, In n ns /\ target_cleanId n = t) ->
  length (filter (fun n => negb (String.eqb (target_cleanId n) t)) ns)
    = length ns - 1.
Proof.
  induction ns as [|m ns IH]; intros Hnd (n & Hin & Hid); [destruct Hin|].
  cbn [map] in Hnd. inversion Hnd as [|? ? Hnotin Hnd']; subst.
  cbn [filter length].
  destruct (String.eqb_spec (target_cleanId m) (target_cleanId n)) as [E|E]; cbn [negb].
  - assert (K : filter (fun x => negb (String.eqb (target_cleanId x) (target_cleanId n))) ns = ns).
    { apply forallb_filter_id. apply forallb_forall. intros x Hx.
      destruct (String.eqb_spec (target_cleanId x) (target_cleanId n)) as [Ex|_];
        [|reflexivity].
      exfalso. apply Hnotin. rewrite E, <- Ex. now apply in_map. }
    rewrite K. lia.
  - destruct Hin as [->|Hin]; [now elim E|].
    cbn [length]. rewrite IH; [|exact Hnd'|eauto].
    destruct ns; [destruct Hin | cbn; lia].
Qed.

Lemma unique_ids_filtered (p : TargetFieldsFragment -> bool)
    (ns : list TargetFieldsFragment) :
  NoDup (map target_cleanId ns) ->
  NoDup (map target_cleanId (filter p ns)).
Proof.
  induction ns as [|m ns IH]; intros Hnd; [constructor|].
  cbn [map] in Hnd. inversion Hnd as [|? ? Hnotin Hnd']; subst.
  cbn [filter]. destruct (p m); [|now apply IH].
  cbn [map]. constructor; [|now apply IH].
  intros Hin. apply Hnotin.
  apply in_map_iff in Hin. destruct Hin as (x & Ex & Hx).
  apply filter_In in Hx. rewrite <- Ex. apply in_map. tauto.
Qed.

Lemma distinct_strings_distinct_props (l : list string) :
  NoDup l -> NoDup (map PStr l).
Proof.
  induction 1 as [|x l Hx _ IH]; cbn [map]; constructor; [|exact IH].
  intros Hin. apply in_map_iff in Hin. destruct Hin as (y & [= ->] & Hy).
  now apply Hx.
Qed.

(** X11: with pairwise distinct cleanIds in the list, a listed current
    target and a total above 1, the switcher of the main layout offers every
    other listed target and only those: one item fewer than there are nodes,
    under pairwise distinct [key]s, none of which is the current target's
    cleanId. *)
Theorem switcher_offers_all_others (s : RenderState) (ts : TargetConnection)
    (t : TargetFieldsFragment) :
  ready s = true ->
  targets_of s = Some ts ->
  (total ts > 1)%Z ->
  NoDup (map target_cleanId (nodes ts)) ->
  target_of s = Some t ->
  length (item_keys (output (TargetLayout props s))) = length (nodes ts) - 1
  /\ NoDup (item_keys (output (TargetLayout props s)))
  /\ ~ In (PStr (targetId (router s))) (item_keys (output (TargetLayout props s))).
Proof.
  intros R E Hgt Hnd Ht.
  rewrite (output_item_keys s ts R E Hgt).
  split; [|split].
  - rewrite length_map. apply others_of_unique_list; [exact Hnd|].
    unfold target_of in Ht. rewrite E in Ht.
    apply find_some in Ht. destruct Ht as (Hin & Hid).
    apply String.eqb_eq in Hid. eauto.
  - rewrite <- (map_map target_cleanId PStr).
    apply distinct_strings_distinct_props.
    now apply unique_ids_filtered.
  - intros Hin. apply in_map_iff in Hin. destruct Hin as (x & Ex & Hx).
    apply filter_In in Hx. destruct Hx as (_ & Hx).
    injection Ex as Ex. rewrite Ex, String.eqb_refl in Hx. discriminate Hx.
Qed.

End Display.

(** ** The path of the redirect *)

(** X12: what the redirect is given always begins with the part of the path
    in front of its first [#]; and for a path without line terminators it
    holds no [#] at all and is left as it is when the replacement is applied
    to it again - a redirect from the redirected path asks for the same
    path. *)
Theorem redirect_path_is_stable (path : string) :
  (exists kept,
     JS.replace_hash_dot_star path = JS.strip_fragment path ++ kept)
  /\ (JS.has_line_terminator path = false ->
      JS.has_hash (JS.replace_hash_dot_star path) = false
      /\ JS.replace_hash_dot_star (JS.replace_hash_dot_star path)
         = JS.replace_hash_dot_star path).
Proof.
  split; [apply replace_keeps_the_front|].
  intros H. rewrite (replace_on_one_line path H).
  split; [apply strip_fragment_has_no_hash|].
  apply replace_without_hash, strip_fragment_has_no_hash.
Qed.

(** ** The further properties on the sample data *)

(** After a render with the project found, the project turns out null and
    is rendered twice. *)
Lemma missing_project_redirects_once_witness :
  map project_navigation
      (run (Sample.echo TabValue.Schema)
           (fiber (commit mounting
                     (TargetLayout (Sample.echo TabValue.Schema) Sample.scenario)))
           [Sample.project_null; Sample.project_null])
    = [[push "/404" "/acme/api/prod"]; []].
Proof.
  refine (missing_project_redirects_once (Sample.echo TabValue.Schema)
            (fiber (commit mounting
                      (TargetLayout (Sample.echo TabValue.Schema) Sample.scenario)))
            Sample.project_null [Sample.project_null] eq_refl eq_refl _ _).
  - right. exists 0, (Defined Sample.api), false.
    split; [reflexivity|]. right. left. discriminate.
  - repeat constructor.
Defined.

(** A project that is missing as [undefined] and then as [null] changes the
    dependency array although it stays missing: the effect pushes again. *)
Example undefined_then_null_redirects_again :
  map project_navigation
      (run (Sample.echo TabValue.Schema) mounting
           [Sample.project_unloaded; Sample.project_null; Sample.project_null])
    = [[push "/404" "/acme/api/prod"]; [push "/404" "/acme/api/prod"]; []].
Proof. reflexivity. Qed.

Lemma no_not_found_redirect_while_present_or_fetching_witness :
  Forall (fun c => targets_navigation c = [] /\ project_navigation c = [])
         (run (Sample.echo TabValue.Schema) mounting
              [Sample.fetching_targets; Sample.scenario]).
Proof.
  apply (no_not_found_redirect_while_present_or_fetching
           (Sample.echo TabValue.Schema)
           [Sample.fetching_targets; Sample.scenario] mounting).
  constructor; [|constructor; [|constructor]].
  - split; [left; reflexivity | right; discriminate].
  - split; right; discriminate.
Defined.

Lemma fetch_completion_triggers_redirect_witness :
  map targets_navigation
      (run (Sample.echo TabValue.Schema) mounting
           [Sample.fetching_targets; Sample.unlisted])
    = [[]; [push "/404" "/acme/api/prod"]].
Proof.
  exact (fetch_completion_triggers_redirect (Sample.echo TabValue.Schema) mounting
           Sample.fetching_targets Sample.unlisted eq_refl eq_refl eq_refl).
Defined.

Lemma failed_fetch_also_redirects_witness :
  rendered (commit mounting
              (TargetLayout (Sample.echo TabValue.Schema) Sample.both_failed))
    = query_error (Some {| message := "project unavailable" |})
  /\ targets_navigation
       (commit mounting
          (TargetLayout (Sample.echo TabValue.Schema) Sample.both_failed))
     = [push "/404" "/acme/api/prod"].
Proof.
  exact (failed_fetch_also_redirects (Sample.echo TabValue.Schema)
           Sample.both_failed {| message := "targets unavailable" |}
           eq_refl eq_refl eq_refl eq_refl).
Defined.

Lemma both_missing_push_twice_witness :
  (targets_navigation
     (commit mounting (TargetLayout (Sample.echo TabValue.Schema) Sample.nothing_found))
   ++ project_navigation
        (commit mounting (TargetLayout (Sample.echo TabValue.Schema) Sample.nothing_found)))%list
    = [push "/404" "/acme/api/prod"; push "/404" "/acme/api/prod"].
Proof.
  exact (both_missing_push_twice (Sample.echo TabValue.Schema) Sample.nothing_found
           eq_refl eq_refl eq_refl eq_refl).
Defined.

Lemma first_listed_match_is_shown_witness :
  elements_tagged "Heading"
    (output (TargetLayout (Sample.echo TabValue.Schema) Sample.duplicated))
    = [ Elem "Heading"
          [("size", PStr "2xl"); ("className", PStr "line-clamp-1 max-w-2xl")]
          [ Text "Production" ] ]
  /\ foreigns (output (TargetLayout (Sample.echo TabValue.Schema) Sample.duplicated))
     = [ {| target := Some Sample.prod;
            project := Some Sample.api;
            organization := Some (Sample.acme Sample.owner) |} ].
Proof.
  apply (first_listed_match_is_shown (Sample.echo TabValue.Schema) Sample.duplicated
           {| nodes := [Sample.stage; Sample.prod; Sample.prod_again]; total := 3 |}
           [Sample.stage] [Sample.prod_again] Sample.prod);
    try reflexivity.
  intros m [<-|[]]. discriminate.
Defined.

Lemma query_error_always_has_error_witness :
  exists err,
    or_else (error (projectQuery Sample.both_failed))
            (error (targetsQuery Sample.both_failed)) = Some err
    /\ @Elem RenderProps "QueryError"
         [("error", PError {| message := "project unavailable" |})] []
       = Elem "QueryError" [("error", PError err)] []
    /\ elements_tagged "QueryError"
         (output (TargetLayout (Sample.echo TabValue.Schema) Sample.both_failed))
       = [ Elem "QueryError"
             [("error", PError {| message := "project unavailable" |})] [] ].
Proof.
  apply (query_error_always_has_error (Sample.echo TabValue.Schema) Sample.both_failed).
  left. reflexivity.
Defined.

Lemma switcher_offers_all_others_witness :
  length (item_keys (output (TargetLayout (Sample.echo TabValue.Schema) Sample.scenario)))
    = 1
  /\ NoDup (item_keys (output (TargetLayout (Sample.echo TabValue.Schema) Sample.scenario)))
  /\ ~ In (PStr "prod")
          (item_keys (output (TargetLayout (Sample.echo TabValue.Schema) Sample.scenario))).
Proof.
  apply (switcher_offers_all_others (Sample.echo TabValue.Schema) Sample.scenario
           {| nodes := [Sample.prod; Sample.stage]; total := 2 |} Sample.prod);
    try reflexivity.
  repeat constructor; cbn; intuition discriminate.
Defined.

Lemma redirect_path_is_stable_witness :
  JS.has_hash (JS.replace_hash_dot_star "/acme/api/prod#top") = false
  /\ JS.replace_hash_dot_star (JS.replace_hash_dot_star "/acme/api/prod#top")
     = JS.replace_hash_dot_star "/acme/api/prod#top".
Proof.
  exact (proj2 (redirect_path_is_stable "/acme/api/prod#top") eq_refl).
Defined.

(** ** C4: the read-scope check *)



